(** * Verification of the document ingestion and retrieval core

    Shallow embedding of [app/models/document.py],
    [app/core/vector_db/pinecone_client.py],
    [app/services/document_service.py] and the upload route of
    [app/routers/upload.py].

    Modelling choices:
    - Python [str] is [string]; [Optional[str]] is [option string]; Python
      truthiness of a string is "non-empty".
    - Embedding vectors ([List[float]]) are [list Z] and similarity scores are
      [Z]: the code never computes with them, it only passes them on and
      compares a score with the threshold.
    - A metadata dictionary ([Dict[str, Any]]) is a [gmap string string].
    - The Pinecone index (an external service) is a map from vector id to
      stored vector, plus its similarity metric and an availability flag;
      an unavailable index makes every call raise.
    - Exceptions carry their message ([str(e)]); state changes made before
      an exception are kept, as in Python. *)

From Stdlib Require Import Sorting.Sorted Strings.Ascii.
From stdpp Require Import base gmap strings list fin_maps pretty.

Open Scope Z_scope.

(* ------------------------------------------------------------------ *)
(** ** Python helpers *)

(** Truthiness of a [str]: [if s:] is false exactly for [""]. *)
Definition py_truthy (s : string) : bool := negb (String.eqb s "").

(** Truthiness of an [Optional[str]]. *)
Definition py_truthy_opt (o : option string) : bool :=
  match o with Some s => py_truthy s | None => false end.

(** Truthiness of an [Optional[List[float]]]. *)
Definition py_truthy_vec (o : option (list Z)) : bool :=
  match o with Some (_ :: _) => true | _ => false end.

(** Python [!=] on [Optional[str]]. *)
Definition opt_neq (a b : option string) : bool := negb (bool_decide (a = b)).

(** Results of a call that may raise. *)
Inductive res (A : Type) : Type :=
| Ok (a : A)
| Err (msg : string).
Arguments Ok {A} a.
Arguments Err {A} msg.

(** The value of a call that returned, or [d] if it raised. *)
Definition ok_or {A} (d : A) (r : res A) : A :=
  match r with Ok a => a | Err _ => d end.

(* ------------------------------------------------------------------ *)
(** ** Data model ([app/models/document.py]) *)

Inductive DocumentType := PDF | DOCX | TXT | HTML | MARKDOWN | PPTX | XLSX | XLS.

Inductive DocumentStatus := UPLOADED | PROCESSING | PROCESSED | EMBEDDED | ERROR.

Inductive AccessLevel := PRIVATE | HIERARCHY | PUBLIC.

Module DocumentChunk.
Record t := mk {
  id : string;
  content : string;
  metadata : gmap string string;
  embedding : option (list Z);
  user_id : option string
}.
End DocumentChunk.

Module Document.
Record t := mk {
  id : string;
  filename : string;
  file_type : DocumentType;
  chunks : list DocumentChunk.t;
  status : DocumentStatus;
  user_id : option string;
  access_level : AccessLevel;
  error_message : option string
}.

Definition set_status (s : DocumentStatus) (d : t) : t :=
  mk (id d) (filename d) (file_type d) (chunks d) s (user_id d)
     (access_level d) (error_message d).

Definition set_error (msg : string) (d : t) : t :=
  mk (id d) (filename d) (file_type d) (chunks d) ERROR (user_id d)
     (access_level d) (Some msg).

Definition set_chunks (cs : list DocumentChunk.t) (d : t) : t :=
  mk (id d) (filename d) (file_type d) cs (status d) (user_id d)
     (access_level d) (error_message d).
End Document.

Module DocumentProcessingStatus.
Record t := mk {
  document_id : string;
  status : DocumentStatus;
  chunks_count : nat;
  embedded_count : nat;
  error_message : option string;
  progress_percentage : Z
}.
End DocumentProcessingStatus.

Module SearchResult.
Record t := mk {
  chunk_id : string;
  document_id : string;
  content : string;
  score : Z;
  metadata : gmap string string
}.
End SearchResult.

(* ------------------------------------------------------------------ *)
(** ** The Pinecone index (external service) *)

Module Pinecone.
(** A stored vector: its values and its metadata. *)
Record stored := mkStored { values : list Z; vmeta : gmap string string }.

Record index := mkIndex {
  vectors : gmap string stored;
  metric : list Z -> list Z -> Z;
  available : bool
}.

(** A query match: id, score and metadata. *)
Record match_ := mkMatch { m_id : string; m_score : Z; m_metadata : gmap string string }.

Definition with_vectors (ix : index) (vs : gmap string stored) : index :=
  mkIndex vs (metric ix) (available ix).

(** Equality filter on metadata ([{"key": value, ...}]). *)
Definition filter_matches (f md : gmap string string) : bool :=
  forallb (fun kv => bool_decide (md !! kv.1 = Some kv.2)) (map_to_list f).

Fixpoint insert_desc (m : match_) (l : list match_) : list match_ :=
  match l with
  | [] => [m]
  | x :: l' => if Z.ltb (m_score x) (m_score m) then m :: l else x :: insert_desc m l'
  end.

Fixpoint sort_desc (l : list match_) : list match_ :=
  match l with
  | [] => []
  | x :: l' => insert_desc x (sort_desc l')
  end.

(** [index.query(vector, top_k, filter)]: the [top_k] stored vectors that
    pass the filter, best score first. *)
Definition query (ix : index) (q : list Z) (top_k : nat) (f : gmap string string)
  : list match_ :=
  firstn top_k
    (sort_desc
       (map (fun kv => mkMatch kv.1 (metric ix q (values kv.2)) (vmeta kv.2))
          (List.filter (fun kv => filter_matches f (vmeta kv.2)) (map_to_list (vectors ix))))).

(** [index.upsert(vectors)]: each vector overwrites the one with its id. *)
Definition upsert (ix : index) (vs : list (string * stored)) : index :=
  with_vectors ix (foldl (fun m kv => <[kv.1 := kv.2]> m) (vectors ix) vs).

(** [index.delete(ids)]: missing ids are ignored. *)
Definition delete_ids (ix : index) (ids : list string) : index :=
  with_vectors ix (foldl (fun m k => delete k m) (vectors ix) ids).
End Pinecone.

(* ------------------------------------------------------------------ *)
(** ** [PineconeClient] ([app/core/vector_db/pinecone_client.py]) *)

Module PineconeClient.
Import Pinecone.

(** The metadata stored for a chunk: [{**chunk.metadata, "content": ...}]
    and ["user_id"] only when [chunk.user_id] is truthy. *)
Definition chunk_metadata (c : DocumentChunk.t) : gmap string string :=
  let md := <["content" := String.substring 0 1000 (DocumentChunk.content c)]>
              (DocumentChunk.metadata c) in
  match DocumentChunk.user_id c with
  | Some u => if py_truthy u then <["user_id" := u]> md else md
  | None => md
  end.

(** The [vectors] list built by [upsert_vectors]: chunks whose
    [embedding] is falsy are skipped. *)
Fixpoint prepare_vectors (chunks : list DocumentChunk.t) : list (string * stored) :=
  match chunks with
  | [] => []
  | c :: cs =>
      match DocumentChunk.embedding c with
      | Some (v :: vs) =>
          (DocumentChunk.id c, mkStored (v :: vs) (chunk_metadata c)) :: prepare_vectors cs
      | _ => prepare_vectors cs
      end
  end.

Definition upsert_vectors (ix : index) (chunks : list DocumentChunk.t) : res bool * index :=
  if available ix then
    let vs := prepare_vectors chunks in
    match vs with
    | [] => (Ok true, ix)
    | _ => (Ok true, upsert ix vs)
    end
  else (Err "Failed to upsert vectors to Pinecone: unavailable", ix).

(** [SearchResult(chunk_id=match.id, document_id=metadata.get("filename",
    "unknown"), content=metadata.get("content", ""), score=match.score,
    metadata=metadata)] *)
Definition to_result (m : match_) : SearchResult.t :=
  let md := m_metadata m in
  SearchResult.mk (m_id m) (default "unknown" (md !! "filename"))
    (default "" (md !! "content")) (m_score m) md.

(** The post-processing loop of [search_vectors]: threshold, then the
    owner filter when [user_id] is truthy. *)
Fixpoint collect (threshold : Z) (user_id : option string) (ms : list match_)
  : list SearchResult.t :=
  match ms with
  | [] => []
  | m :: ms' =>
      if Z.geb (m_score m) threshold then
        let md := m_metadata m in
        let doc_user_id := md !! "user_id" in
        if py_truthy_opt user_id && (py_truthy_opt doc_user_id && opt_neq doc_user_id user_id)
        then collect threshold user_id ms'
        else to_result m :: collect threshold user_id ms'
      else collect threshold user_id ms'
  end.

Definition search_vectors (ix : index) (query_vector : list Z) (top_k : nat)
    (threshold : Z) (filter_metadata : option (gmap string string))
    (user_id : option string) : res (list SearchResult.t) :=
  if available ix then
    let search_filter := default ∅ filter_metadata in
    let results := query ix query_vector top_k search_filter in
    Ok (collect threshold user_id results)
  else Err "Failed to search vectors in Pinecone: unavailable".

Definition delete_vectors (ix : index) (chunk_ids : list string) : res bool * index :=
  if available ix then (Ok true, delete_ids ix chunk_ids)
  else (Err "Failed to delete vectors from Pinecone: unavailable", ix).
End PineconeClient.

(* ------------------------------------------------------------------ *)
(** ** [DocumentService] ([app/services/document_service.py]) *)

(** The embedder (external collaborator): [embed_texts] and [embed_text]. *)
Record Embedder := mkEmbedder {
  embed_texts : list string -> res (list (list Z));
  embed_text : string -> res (list Z)
}.

(** The service object: [self.documents], [self.embedder], [self.vector_db]. *)
Record Service := mkService {
  documents : gmap string Document.t;
  embedder : option Embedder;
  vector_db : option Pinecone.index
}.

Definition with_documents (s : Service) (ds : gmap string Document.t) : Service :=
  mkService ds (embedder s) (vector_db s).

Definition with_vector_db (s : Service) (ix : Pinecone.index) : Service :=
  mkService (documents s) (embedder s) (Some ix).

(** A method of the service: it reads and updates the service state and may
    raise; updates made before a raise are kept. *)
Definition M (A : Type) : Type := Service -> res A * Service.

Definition ret {A} (a : A) : M A := fun s => (Ok a, s).

Definition bind {A B} (m : M A) (k : A -> M B) : M B :=
  fun s => match m s with
           | (Ok a, s') => k a s'
           | (Err msg, s') => (Err msg, s')
           end.

Notation "'let*' x := m 'in' k" := (bind m (fun x => k))
  (at level 200, x name, m at level 100, k at level 200).

(** The [except] clause of each pipeline stage: if the document is known,
    record [ERROR] and [str(e)], then re-raise. *)
Definition fail_stage {A} (document_id msg : string) : M A :=
  fun s => (Err msg,
            match documents s !! document_id with
            | Some d => with_documents s (<[document_id := Document.set_error msg d]> (documents s))
            | None => s
            end).

(** [create_document]; [document_id] is the value drawn from [uuid.uuid4()]. *)
Definition create_document (document_id filename : string) (file_type : DocumentType)
    (user_id : string) (access_level : AccessLevel) : M Document.t :=
  fun s =>
    let assigned_user_id := match access_level with PUBLIC => None | _ => Some user_id end in
    let document := Document.mk document_id filename file_type [] UPLOADED
                      assigned_user_id access_level None in
    (Ok document, with_documents s (<[document_id := document]> (documents s))).

(** [process_document]; [processor] is the document processor (extraction
    and chunking, an external collaborator). *)
Definition process_document (processor : Document.t -> list Byte.byte -> res Document.t)
    (document_id : string) (file_content : list Byte.byte) : M bool :=
  fun s =>
    match documents s !! document_id with
    | None => (Err ("Document " +:+ document_id +:+ " not found"), s)
    | Some d =>
        let d1 := Document.set_status PROCESSING d in
        let s1 := with_documents s (<[document_id := d1]> (documents s)) in
        match processor d1 file_content with
        | Err msg => fail_stage document_id msg s1
        | Ok pd =>
            (Ok true, with_documents s1
                        (<[document_id := Document.set_status PROCESSED pd]> (documents s1)))
        end
    end.

Definition set_embedding (e : list Z) (c : DocumentChunk.t) : DocumentChunk.t :=
  DocumentChunk.mk (DocumentChunk.id c) (DocumentChunk.content c)
    (DocumentChunk.metadata c) (Some e) (DocumentChunk.user_id c).

(** [for i, chunk in enumerate(chunks): if i < len(embeddings):
       chunk.embedding = embeddings[i]] *)
Fixpoint assign_embeddings (cs : list DocumentChunk.t) (es : list (list Z))
  : list DocumentChunk.t :=
  match cs, es with
  | c :: cs', e :: es' => set_embedding e c :: assign_embeddings cs' es'
  | cs, [] => cs
  | [], _ :: _ => []
  end.

(** [embed_document] *)
Definition embed_document (document_id : string) : M bool :=
  fun s =>
    match documents s !! document_id with
    | None => (Err ("Document " +:+ document_id +:+ " not found"), s)
    | Some d =>
        match embedder s with
        | None => fail_stage document_id "Embedder not configured" s
        | Some e =>
            let texts := map DocumentChunk.content (Document.chunks d) in
            match texts with
            | [] => fail_stage document_id "No chunks to embed" s
            | _ =>
                match embed_texts e texts with
                | Err msg => fail_stage document_id msg s
                | Ok embeddings =>
                    let d' := Document.set_status EMBEDDED
                                (Document.set_chunks
                                   (assign_embeddings (Document.chunks d) embeddings) d) in
                    (Ok true, with_documents s (<[document_id := d']> (documents s)))
                end
            end
        end
    end.

(** Modelled from the spec: [BaseVectorDBClient.batch_upsert_vectors]
    (in [app/core/vector_db/base.py], not among the sources) is the
    contract's [upsert(chunks) -> ok | fails(StorageError)]; for the Pinecone
    backend it is [upsert_vectors]. *)
Definition batch_upsert_vectors (ix : Pinecone.index) (chunks : list DocumentChunk.t)
  : res bool * Pinecone.index :=
  PineconeClient.upsert_vectors ix chunks.

(** [store_vectors] *)
Definition store_vectors (document_id : string) : M bool :=
  fun s =>
    match documents s !! document_id with
    | None => (Err ("Document " +:+ document_id +:+ " not found"), s)
    | Some d =>
        match vector_db s with
        | None => fail_stage document_id "Vector database not configured" s
        | Some ix =>
            let embedded_chunks :=
              List.filter (fun c => py_truthy_vec (DocumentChunk.embedding c))
                (Document.chunks d) in
            match embedded_chunks with
            | [] => fail_stage document_id "No embedded chunks to store" s
            | _ =>
                match batch_upsert_vectors ix embedded_chunks with
                | (Err msg, ix') => fail_stage document_id msg (with_vector_db s ix')
                | (Ok false, ix') =>
                    fail_stage document_id "Failed to store vectors" (with_vector_db s ix')
                | (Ok true, ix') => (Ok true, with_vector_db s ix')
                end
            end
        end
    end.

(** [process_and_embed_document] *)
Definition process_and_embed_document
    (processor : Document.t -> list Byte.byte -> res Document.t)
    (document_id : string) (file_content : list Byte.byte) : M bool :=
  let* _ := process_document processor document_id file_content in
  let* _ := embed_document document_id in
  let* _ := store_vectors document_id in
  ret true.

(** [search_documents]; returns [response.results]. *)
Definition search_documents (s : Service) (query : string) (top_k : nat) (threshold : Z)
    (filter_metadata : option (gmap string string)) (user_id : string)
  : res (list SearchResult.t) :=
  match embedder s, vector_db s with
  | None, _ => Err "Embedder not configured"
  | _, None => Err "Vector database not configured"
  | Some e, Some ix =>
      match embed_text e query with
      | Err msg => Err ("Failed to search documents: " +:+ msg)
      | Ok query_embedding =>
          match PineconeClient.search_vectors ix query_embedding top_k threshold
                  filter_metadata (Some user_id) with
          | Err msg => Err ("Failed to search documents: " +:+ msg)
          | Ok results => Ok results
          end
      end
  end.

(** [get_document] *)
Definition get_document (s : Service) (document_id : string) (user_id : option string)
  : option Document.t :=
  match documents s !! document_id with
  | Some d =>
      if py_truthy_opt user_id then
        if opt_neq (Document.user_id d) user_id && bool_decide (is_Some (Document.user_id d))
        then None else Some d
      else Some d
  | None => None
  end.

Definition progress_of (st : DocumentStatus) : Z :=
  match st with
  | UPLOADED => 0
  | PROCESSING => 25
  | PROCESSED => 50
  | EMBEDDED => 100
  | ERROR => 0
  end.

(** [get_document_status] *)
Definition get_document_status (s : Service) (document_id : string) (user_id : option string)
  : option DocumentProcessingStatus.t :=
  match get_document s document_id user_id with
  | None => None
  | Some d =>
      Some (DocumentProcessingStatus.mk document_id (Document.status d)
              (length (Document.chunks d))
              (length (List.filter (fun c => py_truthy_vec (DocumentChunk.embedding c))
                         (Document.chunks d)))
              (Document.error_message d) (progress_of (Document.status d)))
  end.

(** [delete_document] *)
Definition delete_document (document_id : string) (user_id : option string) : M bool :=
  fun s =>
    match get_document s document_id user_id with
    | None => (Ok false, s)
    | Some d =>
        match vector_db s, Document.chunks d with
        | Some ix, _ :: _ =>
            let chunk_ids := map DocumentChunk.id (Document.chunks d) in
            match PineconeClient.delete_vectors ix chunk_ids with
            | (Err msg, _) => (Err ("Failed to delete document: " +:+ msg), s)
            | (Ok _, ix') =>
                (Ok true, mkService (delete document_id (documents s)) (embedder s) (Some ix'))
            end
        | _, _ => (Ok true, with_documents s (delete document_id (documents s)))
        end
    end.

(* ------------------------------------------------------------------ *)
(** ** Concrete configurations used by the examples *)

(** Dot product, the index metric used in the examples. *)
Definition dot (a b : list Z) : Z := foldr Z.add 0 (zip_with Z.mul a b).

(** An embedder that maps every text to the vector [[1]]. *)
Definition unit_embedder : Embedder :=
  mkEmbedder (fun texts => Ok (map (fun _ => [1]) texts)) (fun _ => Ok [1]).

Definition meta_of (owner : option string) (fname : string) : gmap string string :=
  match owner with
  | Some u => <["user_id" := u]> {["filename" := fname]}
  | None => {["filename" := fname]}
  end.

(** An index with a chunk of ["u2"] scoring 2 and a chunk of ["u1"]
    scoring 1 against the query [[1]]. *)
Definition two_owner_index : Pinecone.index :=
  Pinecone.mkIndex
    (<["c_u2" := Pinecone.mkStored [2] (meta_of (Some "u2") "b.txt")]>
      {["c_u1" := Pinecone.mkStored [1] (meta_of (Some "u1") "a.txt")]})
    dot true.

Definition two_owner_service : Service :=
  mkService ∅ (Some unit_embedder) (Some two_owner_index).

(** A private document of ["u1"] with no chunks yet. *)
Definition owned_doc : Document.t :=
  Document.mk "d1" "a.txt" TXT [] UPLOADED (Some "u1") PRIVATE None.

Definition one_doc_service : Service :=
  mkService {["d1" := owned_doc]} None None.

(** The chunk ["c_u1"] of [two_owner_index], as held by its document. *)
Definition chunk_u1 : DocumentChunk.t :=
  DocumentChunk.mk "c_u1" "hello" {["filename" := "a.txt"]} (Some [1]) (Some "u1").

Definition embedded_doc : Document.t :=
  Document.mk "d1" "a.txt" TXT [chunk_u1] EMBEDDED (Some "u1") PRIVATE None.

Definition indexed_service : Service :=
  mkService {["d1" := embedded_doc]} (Some unit_embedder) (Some two_owner_index).

(** A new vector for ["c_u1"] and a chunk still without an embedding. *)
Definition chunk_u1_v2 : DocumentChunk.t :=
  DocumentChunk.mk "c_u1" "hello again" {["filename" := "a.txt"]} (Some [3]) (Some "u1").

Definition chunk_pending : DocumentChunk.t :=
  DocumentChunk.mk "c_new" "later" ∅ None (Some "u1").

Definition empty_index : Pinecone.index := Pinecone.mkIndex ∅ dot true.

(** A chunk whose [user_id] is the empty string. *)
Definition chunk_blank_owner : DocumentChunk.t :=
  DocumentChunk.mk "c_blank" "notes" {["filename" := "n.txt"]} (Some [1]) (Some "").

(** The same, with a ["user_id"] entry in its own metadata map. *)
Definition chunk_blank_owner_meta : DocumentChunk.t :=
  DocumentChunk.mk "c_blank" "notes" (<["user_id" := "u1"]> {["filename" := "n.txt"]})
    (Some [1]) (Some "").

(** A processed document with one chunk not yet embedded. *)
Definition chunk_p : DocumentChunk.t :=
  DocumentChunk.mk "c_p" "text" {["filename" := "p.txt"]} None (Some "u1").

Definition pending_doc : Document.t :=
  Document.mk "d3" "p.txt" TXT [chunk_p] PROCESSED (Some "u1") PRIVATE None.

Definition embed_ready_service : Service :=
  mkService {["d3" := pending_doc]} (Some unit_embedder) (Some empty_index).

(** A processed document whose extraction produced no chunk. *)
Definition empty_doc : Document.t :=
  Document.mk "d0" "e.txt" TXT [] PROCESSED (Some "u1") PRIVATE None.

Definition chunkless_service : Service :=
  mkService {["d0" := empty_doc]} (Some unit_embedder) (Some empty_index).

Definition no_embedder_service : Service :=
  mkService {["d0" := empty_doc]} None (Some empty_index).

(* ------------------------------------------------------------------ *)
(** ** Predicates used by the proofs *)

Module SearchDefs.
Import Pinecone PineconeClient.

(** The candidates [collect] keeps. *)
Definition keep (threshold : Z) (user_id : option string) (m : match_) : bool :=
  Z.geb (m_score m) threshold &&
  negb (py_truthy_opt user_id &&
        (py_truthy_opt (m_metadata m !! "user_id") &&
         opt_neq (m_metadata m !! "user_id") user_id)).

Definition desc (a b : match_) : Prop := m_score b <= m_score a.

(** A visible candidate, in the sense of the owner filter. *)
Definition owner_ok (caller : string) (r : SearchResult.t) : Prop :=
  match SearchResult.metadata r !! "user_id" with
  | None => True
  | Some o => o = "" \/ o = caller
  end.

Definition ins (m : gmap string stored) (kv : string * stored) : gmap string stored :=
  <[kv.1 := kv.2]> m.
End SearchDefs.

(* ------------------------------------------------------------------ *)
(** ** [PineconeClient.get_all_documents] *)

Module DocSummary.
(** The dictionaries returned by [get_all_documents]:
    [{"filename", "file_type", "user_id", "chunk_count"}]. *)
Record t := mk {
  filename : string;
  file_type : string;
  user_id : option string;
  chunk_count : nat
}.
End DocSummary.

Module AllDocuments.
Import Pinecone.

(** One iteration of [for match in results.matches]: the entry of
    [documents] keyed by the match's filename is created if absent
    (a Python dict keeps insertion order: new keys go last), then its
    [chunk_count] is incremented. *)
Definition add_match (documents : list DocSummary.t) (m : match_) : list DocSummary.t :=
  let metadata := m_metadata m in
  let filename := default "unknown" (metadata !! "filename") in
  let documents :=
    if existsb (fun d => String.eqb (DocSummary.filename d) filename) documents
    then documents
    else documents ++ [DocSummary.mk filename (default "unknown" (metadata !! "file_type"))
                         (metadata !! "user_id") 0] in
  map (fun d => if String.eqb (DocSummary.filename d) filename
                then DocSummary.mk (DocSummary.filename d) (DocSummary.file_type d)
                       (DocSummary.user_id d) (S (DocSummary.chunk_count d))
                else d) documents.

(** [get_all_documents]: a query with the zero vector of the client's
    [dimension], [top_k=10000] and no filter; any exception gives [[]]. *)
Definition get_all_documents (ix : index) (dimension : nat) : list DocSummary.t :=
  if available ix
  then foldl add_match [] (query ix (repeat 0 dimension) 10000 ∅)
  else [].
End AllDocuments.

(* ------------------------------------------------------------------ *)
(** ** Listing documents ([DocumentService.list_documents],
       [DocumentService.list_accessible_documents]) *)

(** [DocumentType(value)]: [None] stands for the [ValueError] it raises. *)
Definition DocumentType_of_value (s : string) : option DocumentType :=
  if String.eqb s "pdf" then Some PDF
  else if String.eqb s "docx" then Some DOCX
  else if String.eqb s "txt" then Some TXT
  else if String.eqb s "html" then Some HTML
  else if String.eqb s "markdown" then Some MARKDOWN
  else if String.eqb s "pptx" then Some PPTX
  else if String.eqb s "xlsx" then Some XLSX
  else if String.eqb s "xls" then Some XLS
  else None.

Definition DocumentType_value (t : DocumentType) : string :=
  match t with
  | PDF => "pdf" | DOCX => "docx" | TXT => "txt" | HTML => "html"
  | MARKDOWN => "markdown" | PPTX => "pptx" | XLSX => "xlsx" | XLS => "xls"
  end.

(** [self.documents.values()]. The model's order of a [gmap] stands for
    the dict's insertion order. *)
Definition document_values (s : Service) : list Document.t :=
  map snd (map_to_list (documents s)).

(** The loop of [list_documents] over the index's documents, for a
    truthy caller [user_id]. It returns [(user_docs, org_docs)]. A
    [ValueError] from [DocumentType(...)] leaves the loop; the [except]
    clause keeps what was appended so far. *)
Fixpoint merge_index_documents (user_id : string) (pinecone_docs : list DocSummary.t)
    (user_docs org_docs : list Document.t) : list Document.t * list Document.t :=
  match pinecone_docs with
  | [] => (user_docs, org_docs)
  | pinecone_doc :: rest =>
      let filename := DocSummary.filename pinecone_doc in
      let already_exists :=
        existsb (fun d => String.eqb (Document.filename d) filename) (user_docs ++ org_docs) in
      if already_exists then merge_index_documents user_id rest user_docs org_docs
      else
        match DocSummary.user_id pinecone_doc with
        | None =>
            match DocumentType_of_value (DocSummary.file_type pinecone_doc) with
            | None => (user_docs, org_docs)
            | Some ft =>
                let document := Document.mk ("pinecone_" +:+ filename) filename ft []
                                  EMBEDDED None PUBLIC None in
                merge_index_documents user_id rest user_docs (org_docs ++ [document])
            end
        | Some doc_user_id =>
            if String.eqb doc_user_id user_id then
              match DocumentType_of_value (DocSummary.file_type pinecone_doc) with
              | None => (user_docs, org_docs)
              | Some ft =>
                  let document := Document.mk ("pinecone_" +:+ filename) filename ft []
                                    EMBEDDED (Some doc_user_id) PRIVATE None in
                  merge_index_documents user_id rest (user_docs ++ [document]) org_docs
              end
            else merge_index_documents user_id rest user_docs org_docs
        end
  end.

(** [list_documents]; [dimension] is the Pinecone client's dimension. *)
Definition list_documents (s : Service) (dimension : nat) (user_id : option string)
  : list Document.t :=
  match user_id with
  | Some u =>
      if py_truthy u then
        let user_docs := List.filter (fun d => bool_decide (Document.user_id d = Some u))
                           (document_values s) in
        let org_docs := List.filter (fun d => bool_decide (Document.user_id d = None))
                          (document_values s) in
        match vector_db s with
        | Some ix =>
            let '(ud, od) := merge_index_documents u
                               (AllDocuments.get_all_documents ix dimension)
                               user_docs org_docs in
            ud ++ od
        | None => user_docs ++ org_docs
        end
      else document_values s
  | None => document_values s
  end.

(** [list_accessible_documents] *)
Definition list_accessible_documents (s : Service) (user_id : string) : list Document.t :=
  List.filter (fun d => bool_decide (Document.user_id d = Some user_id) ||
                        match Document.access_level d with PUBLIC => true | _ => false end)
    (document_values s).

(* ------------------------------------------------------------------ *)
(** ** The upload route ([app/routers/upload.py]) *)

(** A route's outcome: its response, or the [HTTPException] it raises. *)
Inductive http (A : Type) : Type :=
| Resp (a : A)
| HTTPException (status_code : Z) (detail : string).
Arguments Resp {A} a.
Arguments HTTPException {A} status_code detail.

(** [str.lower()] on ASCII letters. *)
Definition ascii_lower (c : Ascii.ascii) : Ascii.ascii :=
  let n := Ascii.nat_of_ascii c in
  if (Nat.leb 65 n && Nat.leb n 90)%bool then Ascii.ascii_of_nat (n + 32) else c.

Fixpoint str_lower (s : string) : string :=
  match s with
  | EmptyString => EmptyString
  | String c s' => String (ascii_lower c) (str_lower s')
  end.

(** [s.split('.')[-1]], with [acc] the text read since the last ['.']. *)
Fixpoint last_segment (s acc : string) : string :=
  match s with
  | EmptyString => acc
  | String c s' =>
      if Ascii.eqb c "."%char then last_segment s' EmptyString
      else last_segment s' (acc +:+ String c EmptyString)
  end.

(** [type_mapping[extension]]; [None] when the key is absent. *)
Definition type_mapping (extension : string) : option DocumentType :=
  if String.eqb extension "pdf" then Some PDF
  else if String.eqb extension "docx" then Some DOCX
  else if String.eqb extension "txt" then Some TXT
  else if String.eqb extension "html" then Some HTML
  else if String.eqb extension "md" then Some MARKDOWN
  else if String.eqb extension "markdown" then Some MARKDOWN
  else if String.eqb extension "pptx" then Some PPTX
  else if String.eqb extension "xlsx" then Some XLSX
  else if String.eqb extension "xls" then Some XLS
  else None.

(** [get_document_type] *)
Definition get_document_type (filename : string) : http DocumentType :=
  let extension := last_segment (str_lower filename) EmptyString in
  match type_mapping extension with
  | Some t => Resp t
  | None => HTTPException 400 ("Unsupported file type: " +:+ extension)
  end.

(** [AccessLevel(access_level)], with the [except ValueError] fallback
    to [AccessLevel.PRIVATE]. *)
Definition parse_access_level (access_level : string) : AccessLevel :=
  if String.eqb access_level "private" then PRIVATE
  else if String.eqb access_level "hierarchy" then HIERARCHY
  else if String.eqb access_level "public" then PUBLIC
  else PRIVATE.

Module DocumentUploadResponse.
Record t := mk {
  document_id : string;
  status : DocumentStatus;
  message : string
}.
End DocumentUploadResponse.

(** [upload_document]; [max_file_size] is [settings.max_file_size] and
    [document_id] the value [create_document] draws from [uuid.uuid4()].
    The background task is only scheduled by the route. *)
Definition upload_document (max_file_size : nat) (document_id filename : string)
    (file_content : list Byte.byte) (access_level current_user_id : string) (s : Service)
  : http DocumentUploadResponse.t * Service :=
  let access_level_enum := parse_access_level access_level in
  if Nat.ltb max_file_size (length file_content) then
    (HTTPException 413 ("File too large. Maximum size is " +:+ pretty max_file_size +:+ " bytes"), s)
  else
    match get_document_type filename with
    | HTTPException c detail => (HTTPException c detail, s)
    | Resp file_type =>
        match create_document document_id filename file_type current_user_id
                access_level_enum s with
        | (Ok document, s') =>
            (Resp (DocumentUploadResponse.mk (Document.id document) (Document.status document)
                     ("Document '" +:+ filename +:+ "' uploaded successfully. Processing started.")),
             s')
        | (Err msg, s') => (HTTPException 500 ("Failed to upload document: " +:+ msg), s')
        end
    end.

(* ================================================================== *)
(** * Properties *)

(* ------------------------------------------------------------------ *)
(** ** The search post-processing *)

Module SearchFacts.
Import Pinecone PineconeClient SearchDefs.


Lemma collect_filter th u ms :
  collect th u ms = map to_result (List.filter (keep th u) ms).
Proof.
  induction ms as [|m ms IH]; [reflexivity|].
  simpl. unfold keep at 1.
  destruct (Z.geb (m_score m) th); simpl; [|exact IH].
  destruct (py_truthy_opt u && _); simpl; rewrite IH; reflexivity.
Qed.

Lemma in_collect th u ms r :
  In r (collect th u ms) -> exists m, In m ms /\ keep th u m = true /\ r = to_result m.
Proof.
  rewrite collect_filter, in_map_iff. intros (m & <- & Hin).
  apply filter_In in Hin as [Hin Hk]. eauto.
Qed.

Lemma collect_length th u ms : (length (collect th u ms) <= length ms)%nat.
Proof.
  rewrite collect_filter, length_map.
  induction ms as [|m ms IH]; simpl; [lia|].
  destruct (keep th u m); simpl; lia.
Qed.


Lemma insert_desc_Forall (P : match_ -> Prop) m l :
  P m -> Forall P l -> Forall P (insert_desc m l).
Proof.
  intros Hm Hl. induction Hl as [|x l Hx Hl IH]; simpl; [auto|].
  destruct (Z.ltb (m_score x) (m_score m)); auto.
Qed.

Lemma insert_desc_sorted m l :
  StronglySorted desc l -> StronglySorted desc (insert_desc m l).
Proof.
  induction 1 as [|x l Hs IH Hx]; simpl.
  - repeat constructor.
  - destruct (Z.ltb (m_score x) (m_score m)) eqn:E.
    + apply Z.ltb_lt in E. constructor; [constructor; assumption|].
      constructor; [unfold desc; lia|].
      eapply Forall_impl; [exact Hx|]. unfold desc. intros y Hy. lia.
    + apply Z.ltb_ge in E. constructor; [exact IH|].
      apply insert_desc_Forall; [unfold desc; lia|exact Hx].
Qed.

Lemma sort_desc_sorted l : StronglySorted desc (sort_desc l).
Proof.
  induction l as [|x l IH]; simpl; [constructor|].
  apply insert_desc_sorted, IH.
Qed.

Lemma firstn_in {A} n (l : list A) x : In x (firstn n l) -> In x l.
Proof.
  revert n. induction l as [|y l IH]; intros [|n]; simpl; try tauto.
  intros [->|H]; [auto|eauto].
Qed.

Lemma firstn_sorted {A} (R : A -> A -> Prop) n l :
  StronglySorted R l -> StronglySorted R (firstn n l).
Proof.
  revert n. induction l as [|x l IH]; intros [|n] Hs; simpl; try constructor.
  - inversion Hs; subst. apply IH; assumption.
  - inversion Hs as [|? ? ? Hx]; subst.
    apply List.Forall_forall. intros y Hy.
    rewrite List.Forall_forall in Hx. apply Hx. eapply firstn_in; eauto.
Qed.

Lemma filter_sorted {A} (R : A -> A -> Prop) (p : A -> bool) l :
  StronglySorted R l -> StronglySorted R (List.filter p l).
Proof.
  induction 1 as [|x l Hs IH Hx]; simpl; [constructor|].
  destruct (p x); [|exact IH].
  constructor; [exact IH|].
  apply List.Forall_forall. intros y Hy. apply filter_In in Hy as [Hy _].
  rewrite List.Forall_forall in Hx. auto.
Qed.

Lemma map_sorted {A B} (R : A -> A -> Prop) (R' : B -> B -> Prop) (f : A -> B) l :
  (forall a b, R a b -> R' (f a) (f b)) ->
  StronglySorted R l -> StronglySorted R' (map f l).
Proof.
  intros HR. induction 1 as [|x l Hs IH Hx]; simpl; constructor; [exact IH|].
  apply List.Forall_forall. intros y Hy. apply in_map_iff in Hy as (a & <- & Ha).
  rewrite List.Forall_forall in Hx. auto.
Qed.

Lemma query_sorted ix q top_k f : StronglySorted desc (query ix q top_k f).
Proof. apply firstn_sorted, sort_desc_sorted. Qed.

Lemma query_length ix q top_k f : (length (query ix q top_k f) <= top_k)%nat.
Proof. apply firstn_le_length. Qed.

Lemma insert_desc_in m l x : In x (insert_desc m l) -> x = m \/ In x l.
Proof.
  induction l as [|y l IH]; simpl; [intuition|].
  destruct (Z.ltb (m_score y) (m_score m)); simpl; [intuition|].
  intros [->|H]; [auto|]. destruct (IH H); auto.
Qed.

Lemma sort_desc_in l x : In x (sort_desc l) -> In x l.
Proof.
  induction l as [|y l IH]; simpl; [auto|].
  intros H. apply insert_desc_in in H as [->|H]; auto.
Qed.

(** Every match of a query is a stored vector, scored by the metric. *)
Lemma query_in ix q top_k f m :
  In m (query ix q top_k f) ->
  exists st, vectors ix !! m_id m = Some st /\ m_metadata m = vmeta st /\
             m_score m = metric ix q (values st).
Proof.
  unfold query. intros H. apply firstn_in in H.
  apply sort_desc_in, in_map_iff in H as ([k st] & <- & H).
  apply filter_In in H as [H _].
  apply list_elem_of_In, elem_of_map_to_list in H. simpl. eauto.
Qed.


Lemma collect_owner th caller ms :
  py_truthy caller = true ->
  Forall (owner_ok caller) (collect th (Some caller) ms).
Proof.
  intros Hc. apply List.Forall_forall. intros r Hr.
  apply in_collect in Hr as (m & _ & Hk & ->).
  unfold keep in Hk. simpl in Hk. rewrite Hc in Hk.
  apply andb_prop in Hk as [_ Hk]. apply negb_true_iff in Hk.
  unfold owner_ok, to_result. simpl.
  destruct (m_metadata m !! "user_id") as [o|]; [|exact I].
  simpl in Hk. unfold py_truthy, opt_neq in Hk.
  destruct (String.eqb o "") eqn:Eo; [left; apply String.eqb_eq, Eo|right].
  simpl in Hk. apply negb_false_iff, bool_decide_eq_true in Hk. congruence.
Qed.
End SearchFacts.

(* ------------------------------------------------------------------ *)
(** ** Claims on search *)

(** C1 (amended): for every search with a non-empty caller id, every returned
    result's stored owner id ([metadata["user_id"]]) is absent, empty, or
    equal to the caller id; a candidate whose stored owner id is a non-empty
    string different from the caller is discarded. *)
Theorem search_documents_owner_filter (s : Service) (query : string) (top_k : nat)
    (threshold : Z) (filter_metadata : option (gmap string string)) (caller : string)
    (rs : list SearchResult.t) :
  py_truthy caller = true ->
  search_documents s query top_k threshold filter_metadata caller = Ok rs ->
  Forall (fun r => match SearchResult.metadata r !! "user_id" with
                   | None => True
                   | Some o => o = "" \/ o = caller
                   end) rs.
Proof.
  intros Hc. unfold search_documents.
  destruct (embedder s) as [e|]; [|discriminate].
  destruct (vector_db s) as [ix|]; [|discriminate].
  destruct (embed_text e query) as [qv|]; [|discriminate].
  unfold PineconeClient.search_vectors. destruct (Pinecone.available ix); [|discriminate].
  intros H. injection H as <-. apply SearchFacts.collect_owner, Hc.
Qed.

Lemma search_documents_owner_filter_witness :
  Forall (fun r => match SearchResult.metadata r !! "user_id" with
                   | None => True
                   | Some o => o = "" \/ o = "u1"
                   end) (ok_or [] (search_documents two_owner_service "q" 5 0 None "u1")).
Proof.
  apply (search_documents_owner_filter two_owner_service "q" 5 0 None "u1");
    [reflexivity | vm_compute; reflexivity].
Defined.

(** C1 counterexample: with the (non-null) caller id [""] the owner filter
    is not applied and a chunk owned by ["u2"] is returned. *)
Lemma search_documents_empty_caller_sees_other_owner :
  ~ (forall rs, search_documents two_owner_service "q" 5 0 None "" = Ok rs ->
       Forall (fun r => SearchResult.metadata r !! "user_id" = None \/
                        SearchResult.metadata r !! "user_id" = Some "") rs).
Proof.
  intros H.
  specialize (H (ok_or [] (search_documents two_owner_service "q" 5 0 None ""))).
  vm_compute in H. specialize (H eq_refl).
  inversion H as [|r rs' Hr _]. destruct Hr as [Hr|Hr]; discriminate Hr.
Qed.

(** C4: every search returns its results in descending score order, at most
    [top_k] of them, each with a score at least [threshold]. *)
Theorem search_vectors_sorted_bounded (ix : Pinecone.index) (query_vector : list Z)
    (top_k : nat) (threshold : Z) (filter_metadata : option (gmap string string))
    (user_id : option string) (rs : list SearchResult.t) :
  PineconeClient.search_vectors ix query_vector top_k threshold filter_metadata user_id
    = Ok rs ->
  StronglySorted (fun a b => SearchResult.score b <= SearchResult.score a) rs /\
  (length rs <= top_k)%nat /\
  Forall (fun r => threshold <= SearchResult.score r) rs.
Proof.
  unfold PineconeClient.search_vectors. destruct (Pinecone.available ix); [|discriminate].
  intros H. injection H as <-.
  set (ms := Pinecone.query ix query_vector top_k (default ∅ filter_metadata)).
  split; [|split].
  - rewrite SearchFacts.collect_filter.
    apply (SearchFacts.map_sorted SearchDefs.desc); [unfold SearchDefs.desc; simpl; auto|].
    apply SearchFacts.filter_sorted, SearchFacts.query_sorted.
  - etransitivity; [apply SearchFacts.collect_length|apply SearchFacts.query_length].
  - apply List.Forall_forall. intros r Hr.
    apply SearchFacts.in_collect in Hr as (m & _ & Hk & ->).
    unfold SearchDefs.keep in Hk. apply andb_prop in Hk as [Hk _].
    apply Z.geb_le in Hk. simpl. exact Hk.
Qed.

Lemma search_vectors_sorted_bounded_witness :
  let rs := ok_or [] (PineconeClient.search_vectors two_owner_index [1] 5 0 None None) in
  StronglySorted (fun a b => SearchResult.score b <= SearchResult.score a) rs /\
  (length rs <= 5)%nat /\ Forall (fun r => 0 <= SearchResult.score r) rs.
Proof.
  apply (search_vectors_sorted_bounded two_owner_index [1] 5 0 None None).
  vm_compute. reflexivity.
Defined.

(** C3 counterexample: the adapter asks the index for exactly [top_k]
    candidates; with [top_k = 1] the best candidate belongs to ["u2"], is
    filtered out, and ["u1"] gets nothing although its own chunk ["c_u1"]
    scores above the threshold. *)
Lemma search_without_overfetch_returns_nothing :
  search_documents two_owner_service "q" 1 0 None "u1" = Ok [] /\
  exists st, Pinecone.vectors two_owner_index !! "c_u1" = Some st /\
    Pinecone.vmeta st !! "user_id" = Some "u1" /\
    0 <= Pinecone.metric two_owner_index [1] (Pinecone.values st).
Proof.
  split; [vm_compute; reflexivity|].
  eexists; split; [reflexivity|]. split; [reflexivity|]. vm_compute. discriminate.
Qed.

(** C3 (amended): the Pinecone adapter does not over-fetch: every result it
    returns is built from one of the [top_k] best candidates the index
    returns for the query, so after the owner filter a caller may receive
    fewer than [top_k] results. *)
Theorem search_vectors_within_top_k (ix : Pinecone.index) (query_vector : list Z)
    (top_k : nat) (threshold : Z) (filter_metadata : option (gmap string string))
    (user_id : option string) (rs : list SearchResult.t) :
  PineconeClient.search_vectors ix query_vector top_k threshold filter_metadata user_id
    = Ok rs ->
  Forall (fun r => exists m,
            In m (Pinecone.query ix query_vector top_k (default ∅ filter_metadata)) /\
            r = PineconeClient.to_result m) rs.
Proof.
  unfold PineconeClient.search_vectors. destruct (Pinecone.available ix); [|discriminate].
  intros H. injection H as <-.
  apply List.Forall_forall. intros r Hr.
  apply SearchFacts.in_collect in Hr as (m & Hm & _ & ->). eauto.
Qed.

Lemma search_vectors_within_top_k_witness :
  Forall (fun r => exists m,
            In m (Pinecone.query two_owner_index [1] 1 (default ∅ None)) /\
            r = PineconeClient.to_result m)
    (ok_or [] (PineconeClient.search_vectors two_owner_index [1] 1 0 None (Some "u2"))).
Proof.
  apply (search_vectors_within_top_k two_owner_index [1] 1 0 None (Some "u2")).
  vm_compute. reflexivity.
Defined.

(* ------------------------------------------------------------------ *)
(** ** Claims on the document store *)

(** C5: [create_document] always returns a document; with a fresh id drawn
    from [uuid4] the new record is stored under that id and no other record
    changes; its status is [UPLOADED]; its owner is [None] exactly when the
    access level is [PUBLIC], and is the supplied user id otherwise. *)
Theorem create_document_spec (s s' : Service) (r : res Document.t)
    (document_id filename : string) (file_type : DocumentType) (user_id : string)
    (access_level : AccessLevel) :
  documents s !! document_id = None ->
  create_document document_id filename file_type user_id access_level s = (r, s') ->
  exists d, r = Ok d /\ Document.id d = document_id /\
    documents s' !! document_id = Some d /\
    (forall k, k <> document_id -> documents s' !! k = documents s !! k) /\
    Document.status d = UPLOADED /\
    (Document.user_id d = None <-> access_level = PUBLIC) /\
    (access_level <> PUBLIC -> Document.user_id d = Some user_id).
Proof.
  intros _ H. unfold create_document in H. injection H as <- <-.
  eexists; split; [reflexivity|]. simpl.
  split; [reflexivity|]. split; [apply lookup_insert_eq|].
  split; [intros k Hk; apply lookup_insert_ne; congruence|].
  split; [reflexivity|].
  destruct access_level; simpl; intuition congruence.
Qed.

Lemma create_document_spec_witness :
  let out := create_document "d2" "b.txt" TXT "u1" PUBLIC one_doc_service in
  exists d, out.1 = Ok d /\ Document.id d = "d2" /\
    documents out.2 !! "d2" = Some d /\
    (forall k, k <> "d2" -> documents out.2 !! k = documents one_doc_service !! k) /\
    Document.status d = UPLOADED /\
    (Document.user_id d = None <-> PUBLIC = PUBLIC) /\
    (PUBLIC <> PUBLIC -> Document.user_id d = Some "u1").
Proof.
  apply (create_document_spec one_doc_service
           (create_document "d2" "b.txt" TXT "u1" PUBLIC one_doc_service).2
           (create_document "d2" "b.txt" TXT "u1" PUBLIC one_doc_service).1
           "d2" "b.txt" TXT "u1" PUBLIC);
    [vm_compute; reflexivity | reflexivity].
Defined.

Module StoreFacts.
Import Pinecone.

Lemma get_document_lookup s document_id user_id d :
  get_document s document_id user_id = Some d -> documents s !! document_id = Some d.
Proof.
  unfold get_document. destruct (documents s !! document_id) as [d'|]; [|discriminate].
  destruct (py_truthy_opt user_id); [|congruence].
  destruct (_ && _); congruence.
Qed.

Lemma foldl_delete_none {V} (m : gmap string V) ids k :
  m !! k = None -> foldl (fun m k => delete k m) m ids !! k = None.
Proof.
  revert m. induction ids as [|j ids IH]; intros m Hm; simpl; [exact Hm|].
  apply IH. destruct (decide (j = k)) as [->|Hne].
  - apply lookup_delete_eq.
  - rewrite lookup_delete_ne; assumption.
Qed.

Lemma foldl_delete_in {V} (m : gmap string V) ids k :
  In k ids -> foldl (fun m k => delete k m) m ids !! k = None.
Proof.
  revert m. induction ids as [|j ids IH]; intros m Hin; simpl; [contradiction|].
  destruct Hin as [->|Hin]; [|apply IH, Hin].
  apply foldl_delete_none, lookup_delete_eq.
Qed.

(** Every result of a search is a vector stored in the configured index. *)
Lemma search_documents_in_index s q top_k th f u rs :
  search_documents s q top_k th f u = Ok rs ->
  exists ix, vector_db s = Some ix /\
    Forall (fun r => is_Some (vectors ix !! SearchResult.chunk_id r)) rs.
Proof.
  unfold search_documents.
  destruct (embedder s) as [e|]; [|discriminate].
  destruct (vector_db s) as [ix|]; [|discriminate].
  destruct (embed_text e q) as [qv|]; [|discriminate].
  unfold PineconeClient.search_vectors. destruct (available ix); [|discriminate].
  intros H. injection H as <-. exists ix. split; [reflexivity|].
  apply List.Forall_forall. intros r Hr.
  apply SearchFacts.in_collect in Hr as (m & Hm & _ & ->).
  apply SearchFacts.query_in in Hm as (st & Hst & _). simpl. rewrite Hst. eauto.
Qed.
End StoreFacts.

(** C7: after a successful [delete_document] the document is gone from the
    store and no later search returns any of its chunk ids. *)
Theorem delete_document_purges_chunks (s s' : Service) (document_id : string)
    (caller : option string) (d : Document.t) :
  documents s !! document_id = Some d ->
  delete_document document_id caller s = (Ok true, s') ->
  documents s' !! document_id = None /\
  forall query top_k threshold filter_metadata (user_id : string) rs,
    search_documents s' query top_k threshold filter_metadata user_id = Ok rs ->
    Forall (fun r => ~ In (SearchResult.chunk_id r)
                         (map DocumentChunk.id (Document.chunks d))) rs.
Proof.
  intros Hd. unfold delete_document.
  destruct (get_document s document_id caller) as [d'|] eqn:Hg; [|discriminate].
  apply StoreFacts.get_document_lookup in Hg. rewrite Hd in Hg. injection Hg as <-.
  destruct (vector_db s) as [ix|] eqn:Hv.
  - destruct (Document.chunks d) as [|c cs] eqn:Hc.
    + intros H. injection H as <-. split; [apply lookup_delete_eq|].
      intros. apply List.Forall_forall. intros r _ [].
    + unfold PineconeClient.delete_vectors. destruct (Pinecone.available ix); [|discriminate].
      intros H. injection H as <-. split; [apply lookup_delete_eq|].
      intros q k th f u rs Hs.
      apply StoreFacts.search_documents_in_index in Hs as (ix' & Hix' & Hall).
      simpl in Hix'. injection Hix' as <-.
      eapply Forall_impl; [exact Hall|]. intros r Hr Hin.
      unfold Pinecone.delete_ids, Pinecone.with_vectors in Hr. cbn [Pinecone.vectors] in Hr.
      rewrite StoreFacts.foldl_delete_in in Hr; [|exact Hin].
      destruct Hr as [? Hr]; discriminate Hr.
  - intros H. injection H as <-. split; [apply lookup_delete_eq|].
    intros q k th f u rs Hs.
    apply StoreFacts.search_documents_in_index in Hs as (ix' & Hix' & _).
    simpl in Hix'. rewrite Hv in Hix'. discriminate.
Qed.

Lemma delete_document_purges_chunks_witness :
  documents (delete_document "d1" (Some "u1") indexed_service).2 !! "d1" = None /\
  forall query top_k threshold filter_metadata (user_id : string) rs,
    search_documents (delete_document "d1" (Some "u1") indexed_service).2
      query top_k threshold filter_metadata user_id = Ok rs ->
    Forall (fun r => ~ In (SearchResult.chunk_id r)
                         (map DocumentChunk.id (Document.chunks embedded_doc))) rs.
Proof.
  apply (delete_document_purges_chunks indexed_service
           (delete_document "d1" (Some "u1") indexed_service).2 "d1" (Some "u1") embedded_doc);
    [reflexivity | vm_compute; reflexivity].
Defined.

(** C8 (amended): for every caller with a non-empty id who cannot access a
    document (its owner id is set and differs from the caller's), the status
    lookup returns [None] and [delete_document] returns [false] without
    raising and without changing anything. *)
Theorem denial_is_absence (s : Service) (document_id caller : string) (d : Document.t) :
  py_truthy caller = true ->
  documents s !! document_id = Some d ->
  Document.user_id d <> None ->
  Document.user_id d <> Some caller ->
  get_document_status s document_id (Some caller) = None /\
  delete_document document_id (Some caller) s = (Ok false, s).
Proof.
  intros Hc Hd Hn Hne.
  assert (Hg : get_document s document_id (Some caller) = None).
  { unfold get_document. rewrite Hd. simpl. rewrite Hc.
    unfold opt_neq. rewrite bool_decide_eq_false_2 by exact Hne.
    rewrite bool_decide_eq_true_2; [reflexivity|].
    destruct (Document.user_id d); [eexists; reflexivity|congruence]. }
  unfold get_document_status, delete_document. rewrite Hg. split; reflexivity.
Qed.

Lemma denial_is_absence_witness :
  get_document_status one_doc_service "d1" (Some "u2") = None /\
  delete_document "d1" (Some "u2") one_doc_service = (Ok false, one_doc_service).
Proof.
  apply (denial_is_absence one_doc_service "d1" "u2" owned_doc);
    [reflexivity | reflexivity | discriminate | discriminate].
Defined.

(** C8 counterexample: the caller id [""] differs from the owner ["u1"], yet
    the status is returned and the document is deleted. *)
Lemma empty_caller_reaches_private_document :
  get_document_status one_doc_service "d1" (Some "") <> None /\
  delete_document "d1" (Some "") one_doc_service
    = (Ok true, mkService ∅ None None).
Proof.
  split; [vm_compute; discriminate | vm_compute; reflexivity].
Qed.

(* ------------------------------------------------------------------ *)
(** ** Claims on upsert *)

Module UpsertFacts.
Import Pinecone PineconeClient SearchDefs.


Lemma upsert_vectors_vectors ix chunks ix' :
  upsert_vectors ix chunks = (Ok true, ix') ->
  vectors ix' = foldl ins (vectors ix) (prepare_vectors chunks).
Proof.
  unfold upsert_vectors. destruct (available ix); [|discriminate].
  destruct (prepare_vectors chunks) eqn:E; intros H; injection H as <-; reflexivity.
Qed.

Lemma foldl_ins_notin m vs k :
  (forall kv, In kv vs -> kv.1 <> k) -> foldl ins m vs !! k = m !! k.
Proof.
  revert m. induction vs as [|kv vs IH]; intros m H; simpl; [reflexivity|].
  rewrite IH by (intros; apply H; simpl; auto).
  unfold ins. apply lookup_insert_ne. apply H. simpl. auto.
Qed.

Lemma foldl_ins_in m vs k st :
  foldl ins m vs !! k = Some st -> m !! k = Some st \/ In (k, st) vs.
Proof.
  revert m. induction vs as [|[k' st'] vs IH]; intros m H; simpl in *; [auto|].
  destruct (IH _ H) as [H'|H']; [|auto].
  unfold ins in H'. simpl in H'. destruct (decide (k' = k)) as [->|Hne].
  - rewrite lookup_insert_eq in H'. injection H' as ->. auto.
  - rewrite lookup_insert_ne in H' by exact Hne. auto.
Qed.

Lemma prepare_vectors_in cs kv :
  In kv (prepare_vectors cs) ->
  exists c v, In c cs /\ kv.1 = DocumentChunk.id c /\ DocumentChunk.embedding c = Some v /\
              v <> [] /\ kv.2 = mkStored v (chunk_metadata c).
Proof.
  induction cs as [|c cs IH]; simpl; [contradiction|].
  destruct (DocumentChunk.embedding c) as [[|x xs]|] eqn:E.
  - intros H. destruct (IH H) as (c' & v & ?). exists c', v. intuition.
  - intros [<-|H].
    + exists c, (x :: xs). simpl. intuition discriminate.
    + destruct (IH H) as (c' & v & ?). exists c', v. intuition.
  - intros H. destruct (IH H) as (c' & v & ?). exists c', v. intuition.
Qed.

Lemma prepare_vectors_app a b :
  prepare_vectors (a ++ b) = prepare_vectors a ++ prepare_vectors b.
Proof.
  induction a as [|c a IH]; simpl; [reflexivity|].
  destruct (DocumentChunk.embedding c) as [[|x xs]|]; simpl; rewrite ?IH; reflexivity.
Qed.
(** The last embedded chunk with a given id is the one stored. *)
Lemma foldl_prepare_last m pre c post :
  py_truthy_vec (DocumentChunk.embedding c) = true ->
  (forall c', In c' post -> DocumentChunk.id c' = DocumentChunk.id c ->
              py_truthy_vec (DocumentChunk.embedding c') = false) ->
  exists v, DocumentChunk.embedding c = Some v /\
    foldl ins m (prepare_vectors (pre ++ c :: post)) !! DocumentChunk.id c
      = Some (mkStored v (chunk_metadata c)).
Proof.
  intros Hc Hpost.
  destruct (DocumentChunk.embedding c) as [[|x xs]|] eqn:E; try discriminate.
  exists (x :: xs). split; [reflexivity|].
  rewrite prepare_vectors_app, foldl_app. simpl. rewrite E.
  simpl. rewrite foldl_ins_notin.
  - apply lookup_insert_eq.
  - intros kv Hkv Heq.
    apply prepare_vectors_in in Hkv as (c' & v & Hc' & Hid & Hv & Hne & _).
    specialize (Hpost c' Hc' ltac:(congruence)). rewrite Hv in Hpost.
    destruct v; [contradiction|discriminate].
Qed.
End UpsertFacts.

(** C9: an upsert leaves untouched every id whose chunks in the batch all
    lack an embedding, never stores an empty vector, and stores the last
    embedded chunk with a given id, overwriting that id's prior vector and
    metadata. *)
Theorem upsert_vectors_skip_and_overwrite (ix ix' : Pinecone.index)
    (chunks : list DocumentChunk.t) :
  PineconeClient.upsert_vectors ix chunks = (Ok true, ix') ->
  (forall k, (forall c, In c chunks -> DocumentChunk.id c = k ->
                        py_truthy_vec (DocumentChunk.embedding c) = false) ->
             Pinecone.vectors ix' !! k = Pinecone.vectors ix !! k) /\
  (forall k st, Pinecone.vectors ix' !! k = Some st ->
                Pinecone.vectors ix !! k = Some st \/ Pinecone.values st <> []) /\
  (forall pre c post, chunks = pre ++ c :: post ->
     py_truthy_vec (DocumentChunk.embedding c) = true ->
     (forall c', In c' post -> DocumentChunk.id c' = DocumentChunk.id c ->
                 py_truthy_vec (DocumentChunk.embedding c') = false) ->
     exists v, DocumentChunk.embedding c = Some v /\
       Pinecone.vectors ix' !! DocumentChunk.id c
         = Some (Pinecone.mkStored v (PineconeClient.chunk_metadata c))).
Proof.
  intros H. apply UpsertFacts.upsert_vectors_vectors in H. rewrite H.
  split; [|split].
  - intros k Hk. apply UpsertFacts.foldl_ins_notin. intros kv Hkv Heq.
    apply UpsertFacts.prepare_vectors_in in Hkv as (c & v & Hc & Hid & Hv & Hne & _).
    specialize (Hk c Hc ltac:(congruence)). rewrite Hv in Hk.
    destruct v; [contradiction|discriminate].
  - intros k st Hst. apply UpsertFacts.foldl_ins_in in Hst as [Hst|Hst]; [auto|right].
    apply UpsertFacts.prepare_vectors_in in Hst as (c & v & _ & _ & _ & Hne & Heq).
    simpl in Heq. subst st. exact Hne.
  - intros pre c post ->. apply UpsertFacts.foldl_prepare_last.
Qed.

Lemma upsert_vectors_skip_and_overwrite_witness :
  let ix' := (PineconeClient.upsert_vectors two_owner_index [chunk_u1_v2; chunk_pending]).2 in
  (forall k, (forall c, In c [chunk_u1_v2; chunk_pending] -> DocumentChunk.id c = k ->
                        py_truthy_vec (DocumentChunk.embedding c) = false) ->
             Pinecone.vectors ix' !! k = Pinecone.vectors two_owner_index !! k) /\
  (forall k st, Pinecone.vectors ix' !! k = Some st ->
                Pinecone.vectors two_owner_index !! k = Some st \/ Pinecone.values st <> []) /\
  (forall pre c post, [chunk_u1_v2; chunk_pending] = pre ++ c :: post ->
     py_truthy_vec (DocumentChunk.embedding c) = true ->
     (forall c', In c' post -> DocumentChunk.id c' = DocumentChunk.id c ->
                 py_truthy_vec (DocumentChunk.embedding c') = false) ->
     exists v, DocumentChunk.embedding c = Some v /\
       Pinecone.vectors ix' !! DocumentChunk.id c
         = Some (Pinecone.mkStored v (PineconeClient.chunk_metadata c))).
Proof.
  apply (upsert_vectors_skip_and_overwrite two_owner_index
           (PineconeClient.upsert_vectors two_owner_index [chunk_u1_v2; chunk_pending]).2).
  vm_compute. reflexivity.
Defined.

Module VisibilityFacts.
Import Pinecone PineconeClient SearchDefs.

Lemma in_ids_collect th u ms k :
  In k (map SearchResult.chunk_id (collect th u ms)) <->
  exists m, In m ms /\ m_id m = k /\ SearchDefs.keep th u m = true.
Proof.
  rewrite SearchFacts.collect_filter, map_map. split.
  - intros H. apply in_map_iff in H as (m & <- & Hm).
    apply filter_In in Hm as [Hm Hk]. eauto.
  - intros (m & Hm & <- & Hk). apply in_map_iff. exists m.
    split; [reflexivity|]. apply filter_In. auto.
Qed.

(** A candidate with no stored owner is kept or dropped for every caller
    alike. *)
Lemma keep_unowned th u m :
  m_metadata m !! "user_id" = None ->
  SearchDefs.keep th u m = SearchDefs.keep th None m.
Proof.
  intros H. unfold SearchDefs.keep. rewrite H. simpl.
  rewrite !andb_false_r. reflexivity.
Qed.
End VisibilityFacts.

(** C10 (amended): a chunk whose [user_id] is the empty string and whose own
    metadata map has no ["user_id"] entry is stored without a ["user_id"]
    key, so every search returns it for any caller exactly when a search with
    no caller would: it is treated as an organization-wide chunk. *)
Theorem blank_owner_stored_as_organization_wide (ix ix' : Pinecone.index)
    (pre post : list DocumentChunk.t) (c : DocumentChunk.t) :
  DocumentChunk.user_id c = Some "" ->
  DocumentChunk.metadata c !! "user_id" = None ->
  py_truthy_vec (DocumentChunk.embedding c) = true ->
  (forall c', In c' post -> DocumentChunk.id c' = DocumentChunk.id c ->
              py_truthy_vec (DocumentChunk.embedding c') = false) ->
  PineconeClient.upsert_vectors ix (pre ++ c :: post) = (Ok true, ix') ->
  exists st, Pinecone.vectors ix' !! DocumentChunk.id c = Some st /\
    Pinecone.vmeta st !! "user_id" = None /\
    forall query_vector top_k threshold filter_metadata caller rs rs0,
      PineconeClient.search_vectors ix' query_vector top_k threshold filter_metadata caller
        = Ok rs ->
      PineconeClient.search_vectors ix' query_vector top_k threshold filter_metadata None
        = Ok rs0 ->
      (In (DocumentChunk.id c) (map SearchResult.chunk_id rs) <->
       In (DocumentChunk.id c) (map SearchResult.chunk_id rs0)).
Proof.
  intros Hu Hmd Hemb Hpost Hup.
  apply UpsertFacts.upsert_vectors_vectors in Hup.
  destruct (UpsertFacts.foldl_prepare_last (Pinecone.vectors ix) pre c post Hemb Hpost)
    as (v & _ & Hst).
  rewrite <- Hup in Hst.
  eexists; split; [exact Hst|]. split.
  - simpl. unfold PineconeClient.chunk_metadata. rewrite Hu. simpl.
    rewrite lookup_insert_ne by discriminate. exact Hmd.
  - intros q k th f u rs rs0 H1 H2.
    unfold PineconeClient.search_vectors in H1, H2.
    destruct (Pinecone.available ix'); [|discriminate].
    injection H1 as <-. injection H2 as <-.
    set (ms := Pinecone.query ix' q k (default ∅ f)).
    assert (Hun : forall m, In m ms -> Pinecone.m_id m = DocumentChunk.id c ->
                            Pinecone.m_metadata m !! "user_id" = None).
    { intros m Hm Hid.
      destruct (SearchFacts.query_in _ _ _ _ _ Hm) as (st & Hst' & Hmeta & _).
      rewrite Hid, Hst in Hst'. injection Hst' as <-. rewrite Hmeta. simpl.
      unfold PineconeClient.chunk_metadata. rewrite Hu. simpl.
      rewrite lookup_insert_ne by discriminate. exact Hmd. }
    rewrite !VisibilityFacts.in_ids_collect.
    split.
    + intros (m & Hm & Hid & Hk). exists m. refine (conj Hm (conj Hid _)).
      rewrite <- (VisibilityFacts.keep_unowned th u m); [exact Hk|apply Hun; assumption].
    + intros (m & Hm & Hid & Hk). exists m. refine (conj Hm (conj Hid _)).
      rewrite (VisibilityFacts.keep_unowned th u m); [exact Hk|apply Hun; assumption].
Qed.

Lemma blank_owner_stored_as_organization_wide_witness :
  let ix' := (PineconeClient.upsert_vectors empty_index [chunk_blank_owner]).2 in
  exists st, Pinecone.vectors ix' !! DocumentChunk.id chunk_blank_owner = Some st /\
    Pinecone.vmeta st !! "user_id" = None /\
    forall query_vector top_k threshold filter_metadata caller rs rs0,
      PineconeClient.search_vectors ix' query_vector top_k threshold filter_metadata caller
        = Ok rs ->
      PineconeClient.search_vectors ix' query_vector top_k threshold filter_metadata None
        = Ok rs0 ->
      (In (DocumentChunk.id chunk_blank_owner) (map SearchResult.chunk_id rs) <->
       In (DocumentChunk.id chunk_blank_owner) (map SearchResult.chunk_id rs0)).
Proof.
  apply (blank_owner_stored_as_organization_wide empty_index
           (PineconeClient.upsert_vectors empty_index [chunk_blank_owner]).2
           [] [] chunk_blank_owner);
    [reflexivity | vm_compute; reflexivity | reflexivity
    | simpl; contradiction | vm_compute; reflexivity].
Defined.

(** C10 counterexample: a chunk with [user_id = ""] whose own metadata map
    carries ["user_id": "u1"] is stored with that ["user_id"] key. *)
Lemma blank_owner_with_metadata_owner_stored_owned :
  DocumentChunk.user_id chunk_blank_owner_meta = Some "" /\
  exists st,
    Pinecone.vectors (PineconeClient.upsert_vectors empty_index [chunk_blank_owner_meta]).2
      !! "c_blank" = Some st /\
    Pinecone.vmeta st !! "user_id" = Some "u1".
Proof.
  split; [reflexivity|]. eexists. split; [vm_compute; reflexivity|]. vm_compute. reflexivity.
Qed.

(* ------------------------------------------------------------------ *)
(** ** Claims on the ingestion pipeline *)

Module PipelineFacts.

Lemma fail_stage_error {A} s s' document_id msg d (r : res A) :
  documents s !! document_id = Some d ->
  fail_stage document_id msg s = (r, s') ->
  r = Err msg /\ documents s' !! document_id = Some (Document.set_error msg d).
Proof.
  intros Hd H. unfold fail_stage in H. rewrite Hd in H. injection H as <- <-.
  split; [reflexivity|]. apply lookup_insert_eq.
Qed.

Lemma assign_embeddings_nonempty cs es :
  length es = length cs -> Forall (fun v => v <> []) es ->
  Forall (fun c => py_truthy_vec (DocumentChunk.embedding c) = true)
    (assign_embeddings cs es).
Proof.
  revert es. induction cs as [|c cs IH]; intros [|v es] Hl Hes; simpl in *;
    try discriminate; [constructor|].
  inversion Hes as [|? ? Hv Hes']; subst. constructor.
  - simpl. destruct v; [contradiction|reflexivity].
  - apply IH; [lia|exact Hes'].
Qed.

(** [store_vectors] either keeps the store and reports a successful upsert
    of the embedded chunks, or records [ERROR]. *)
Lemma store_vectors_outcome s s'' document_id d r :
  documents s !! document_id = Some d ->
  store_vectors document_id s = (r, s'') ->
  (r = Ok true /\ documents s'' = documents s /\
   exists ix ix', vector_db s = Some ix /\
     batch_upsert_vectors ix
       (List.filter (fun c => py_truthy_vec (DocumentChunk.embedding c))
          (Document.chunks d)) = (Ok true, ix') /\
     vector_db s'' = Some ix') \/
  (exists msg, r = Err msg /\
     documents s'' !! document_id = Some (Document.set_error msg d)).
Proof.
  intros Hd H. unfold store_vectors in H. rewrite Hd in H.
  destruct (vector_db s) as [ix|] eqn:Hv.
  2:{ right. eexists. eapply fail_stage_error; eauto. }
  destruct (List.filter _ _) as [|c cs] eqn:Hf.
  { right. eexists. eapply fail_stage_error; eauto. }
  destruct (batch_upsert_vectors ix (c :: cs)) as [[[|]|msg] ix'] eqn:Hb.
  - injection H as <- <-. left. split; [reflexivity|]. split; [reflexivity|].
    exists ix, ix'. split; [reflexivity|]. split; [exact Hb|reflexivity].
  - right. eexists. eapply fail_stage_error; [|exact H]. exact Hd.
  - right. eexists. eapply fail_stage_error; [|exact H]. exact Hd.
Qed.
End PipelineFacts.

(** C2 (amended): [embed_document] sets the status to [EMBEDDED] as soon as
    the embedder has returned, leaving the vector index untouched; when the
    embedder returns one non-empty vector per chunk every chunk then carries
    a non-empty embedding. The upsert happens afterwards in [store_vectors]:
    on success the status stays [EMBEDDED] and the upsert of the embedded
    chunks has reported success; on failure the status becomes [ERROR]. *)
Theorem embed_document_marks_embedded (s : Service) (document_id : string)
    (d : Document.t) (e : Embedder) (embeddings : list (list Z)) :
  documents s !! document_id = Some d ->
  embedder s = Some e ->
  Document.chunks d <> [] ->
  embed_texts e (map DocumentChunk.content (Document.chunks d)) = Ok embeddings ->
  exists d',
    embed_document document_id s
      = (Ok true, with_documents s (<[document_id := d']> (documents s))) /\
    Document.status d' = EMBEDDED /\
    (length embeddings = length (Document.chunks d) ->
     Forall (fun v => v <> []) embeddings ->
     Forall (fun c => py_truthy_vec (DocumentChunk.embedding c) = true)
       (Document.chunks d')) /\
    (forall r s'',
       store_vectors document_id (with_documents s (<[document_id := d']> (documents s)))
         = (r, s'') ->
       (r = Ok true /\ documents s'' !! document_id = Some d' /\
        exists ix ix', vector_db s = Some ix /\
          batch_upsert_vectors ix
            (List.filter (fun c => py_truthy_vec (DocumentChunk.embedding c))
               (Document.chunks d')) = (Ok true, ix') /\
          vector_db s'' = Some ix') \/
       (exists msg, r = Err msg /\ documents s'' !! document_id = Some (Document.set_error msg d') /\
          Document.status (Document.set_error msg d') = ERROR)).
Proof.
  intros Hd He Hc Hemb.
  set (d' := Document.set_status EMBEDDED
               (Document.set_chunks (assign_embeddings (Document.chunks d) embeddings) d)).
  exists d'. split; [|split; [reflexivity|split]].
  - unfold embed_document. rewrite Hd, He. cbv zeta. rewrite Hemb.
    destruct (Document.chunks d) as [|c cs] eqn:Hcs; [contradiction|].
    reflexivity.
  - intros Hl Hne. apply PipelineFacts.assign_embeddings_nonempty; assumption.
  - intros r s'' Hs.
    destruct (PipelineFacts.store_vectors_outcome
                (with_documents s (<[document_id := d']> (documents s))) _ document_id d' r
                ltac:(simpl; apply lookup_insert_eq) Hs)
      as [(-> & Hdocs & ix & ix' & Hix & Hb & Hix'')|(msg & -> & Hmsg)].
    + left. split; [reflexivity|]. split.
      * rewrite Hdocs. apply lookup_insert_eq.
      * exists ix, ix'. auto.
    + right. exists msg. auto.
Qed.

Lemma embed_document_marks_embedded_witness :
  exists d',
    embed_document "d3" embed_ready_service
      = (Ok true, with_documents embed_ready_service
                    (<["d3" := d']> (documents embed_ready_service))) /\
    Document.status d' = EMBEDDED /\
    (length [[1]] = length (Document.chunks pending_doc) ->
     Forall (fun v => v <> []) [[1]] ->
     Forall (fun c => py_truthy_vec (DocumentChunk.embedding c) = true)
       (Document.chunks d')) /\
    (forall r s'',
       store_vectors "d3" (with_documents embed_ready_service
                             (<["d3" := d']> (documents embed_ready_service)))
         = (r, s'') ->
       (r = Ok true /\ documents s'' !! "d3" = Some d' /\
        exists ix ix', vector_db embed_ready_service = Some ix /\
          batch_upsert_vectors ix
            (List.filter (fun c => py_truthy_vec (DocumentChunk.embedding c))
               (Document.chunks d')) = (Ok true, ix') /\
          vector_db s'' = Some ix') \/
       (exists msg, r = Err msg /\ documents s'' !! "d3" = Some (Document.set_error msg d') /\
          Document.status (Document.set_error msg d') = ERROR)).
Proof.
  apply (embed_document_marks_embedded embed_ready_service "d3" pending_doc unit_embedder [[1]]);
    [reflexivity | reflexivity | discriminate | reflexivity].
Defined.

(** C2 counterexample: [embed_document] moves a [PROCESSED] document to
    [EMBEDDED] while its chunk is still absent from the vector index; no
    upsert has taken place. *)
Lemma embedded_before_upsert :
  (embed_document "d3" embed_ready_service).1 = Ok true /\
  option_map Document.status (documents (embed_document "d3" embed_ready_service).2 !! "d3")
    = Some EMBEDDED /\
  option_map (fun ix => Pinecone.vectors ix !! "c_p")
    (vector_db (embed_document "d3" embed_ready_service).2) = Some None.
Proof. vm_compute. repeat split. Qed.

(** C6 (amended): with an embedder configured, a document that reaches the
    embedding stage with zero chunks makes [embed_document] fail with
    ["No chunks to embed"]; the document's status becomes [ERROR] with that
    message recorded verbatim, and a later status lookup by a caller allowed
    to see the document reports progress 0 and that message. *)
Theorem embed_without_chunks_fails (s s' : Service) (r : res bool) (document_id : string)
    (d : Document.t) (e : Embedder) (caller : option string) :
  documents s !! document_id = Some d ->
  embedder s = Some e ->
  Document.chunks d = [] ->
  get_document s document_id caller <> None ->
  embed_document document_id s = (r, s') ->
  r = Err "No chunks to embed" /\
  exists d', documents s' !! document_id = Some d' /\ Document.status d' = ERROR /\
    Document.error_message d' = Some "No chunks to embed" /\
    exists st, get_document_status s' document_id caller = Some st /\
      DocumentProcessingStatus.progress_percentage st = 0 /\
      DocumentProcessingStatus.error_message st = Some "No chunks to embed".
Proof.
  intros Hd He Hc Hg H. unfold embed_document in H. rewrite Hd, He, Hc in H.
  simpl in H.
  destruct (PipelineFacts.fail_stage_error _ _ _ _ _ _ Hd H) as [-> Hd'].
  split; [reflexivity|].
  eexists; split; [exact Hd'|]. split; [reflexivity|]. split; [reflexivity|].
  assert (Hg' : get_document s' document_id caller = Some (Document.set_error "No chunks to embed" d)).
  { unfold get_document in Hg |- *. rewrite Hd in Hg. rewrite Hd'.
    destruct (py_truthy_opt caller); [|reflexivity].
    destruct (_ && _); [contradiction|reflexivity]. }
  unfold get_document_status. rewrite Hg'. eexists. split; [reflexivity|]. split; reflexivity.
Qed.

Lemma embed_without_chunks_fails_witness :
  (embed_document "d0" chunkless_service).1 = Err "No chunks to embed" /\
  exists d', documents (embed_document "d0" chunkless_service).2 !! "d0" = Some d' /\
    Document.status d' = ERROR /\
    Document.error_message d' = Some "No chunks to embed" /\
    exists st, get_document_status (embed_document "d0" chunkless_service).2 "d0" (Some "u1")
                 = Some st /\
      DocumentProcessingStatus.progress_percentage st = 0 /\
      DocumentProcessingStatus.error_message st = Some "No chunks to embed".
Proof.
  apply (embed_without_chunks_fails chunkless_service (embed_document "d0" chunkless_service).2
           (embed_document "d0" chunkless_service).1 "d0" empty_doc unit_embedder (Some "u1"));
    [reflexivity | reflexivity | reflexivity | vm_compute; discriminate | reflexivity].
Defined.

(** C6 counterexample: with no embedder configured, a chunkless document at
    the embedding stage fails with ["Embedder not configured"], and that is
    the message recorded. *)
Lemma chunkless_without_embedder_other_error :
  (embed_document "d0" no_embedder_service).1 = Err "Embedder not configured" /\
  option_map Document.error_message
    (documents (embed_document "d0" no_embedder_service).2 !! "d0")
    = Some (Some "Embedder not configured").
Proof. vm_compute. split; reflexivity. Qed.

(* ------------------------------------------------------------------ *)
(** ** Listing the index's documents *)

Module AllDocumentsFacts.
Import Pinecone AllDocuments.












End AllDocumentsFacts.


(* ------------------------------------------------------------------ *)
(** ** [list_documents] *)

Module ListingFacts.

Lemma not_in_filenames f l :
  existsb (fun d => String.eqb (Document.filename d) f) l = false ->
  ~ In f (map Document.filename l).
Proof.
  intros E Hin. apply in_map_iff in Hin as (x & Hxf & Hx).
  assert (existsb (fun d => String.eqb (Document.filename d) f) l = true)
    by (apply existsb_exists; exists x; split; [exact Hx|apply String.eqb_eq, Hxf]).
  congruence.
Qed.

(** What the merge loop appends to [user_docs] and [org_docs]. *)
Definition appended (pds : list DocSummary.t) (ud od : list Document.t)
    (d : Document.t) : Prop :=
  ~ In (Document.filename d) (map Document.filename (ud ++ od)) /\
  Document.status d = EMBEDDED /\ Document.chunks d = [] /\
  In (Document.filename d) (map DocSummary.filename pds).

Lemma merge_shape u pds ud od :
  exists ua oa,
    merge_index_documents u pds ud od = (ud ++ ua, od ++ oa) /\
    Forall (fun d => Document.user_id d = Some u) ua /\
    Forall (fun d => Document.user_id d = None) oa /\
    NoDup (map Document.filename (ua ++ oa)) /\
    Forall (appended pds ud od) (ua ++ oa).
Proof.
  revert ud od. induction pds as [|pd pds IH]; intros ud od; simpl.
  { exists [], []. rewrite !app_nil_r. repeat split; constructor. }
  (* weakening [appended] to a longer index list *)
  assert (Hw : forall ud od l, Forall (appended pds ud od) l ->
                               Forall (appended (pd :: pds) ud od) l).
  { intros ud' od' l. apply List.Forall_impl. intros d (H1 & H2 & H3 & H4).
    repeat split; auto. simpl. auto. }
  (* the loop stops: nothing more is appended *)
  assert (Hstop : exists ua oa, (ud, od) = (ud ++ ua, od ++ oa) /\
            Forall (fun d => Document.user_id d = Some u) ua /\
            Forall (fun d => Document.user_id d = None) oa /\
            NoDup (map Document.filename (ua ++ oa)) /\
            Forall (appended (pd :: pds) ud od) (ua ++ oa)).
  { exists [], []. rewrite !app_nil_r. repeat split; constructor. }
  (* the index entry is skipped *)
  assert (Hskip : exists ua oa,
            merge_index_documents u pds ud od = (ud ++ ua, od ++ oa) /\
            Forall (fun d => Document.user_id d = Some u) ua /\
            Forall (fun d => Document.user_id d = None) oa /\
            NoDup (map Document.filename (ua ++ oa)) /\
            Forall (appended (pd :: pds) ud od) (ua ++ oa)).
  { destruct (IH ud od) as (ua & oa & Heq & H1 & H2 & H3 & H4).
    exists ua, oa. repeat split; auto. }
  destruct (existsb _ (ud ++ od)) eqn:E; [exact Hskip|].
  apply not_in_filenames in E.
  destruct (DocSummary.user_id pd) as [o|].
  - destruct (String.eqb o u) eqn:Eo; [|exact Hskip].
    apply String.eqb_eq in Eo. subst o.
    destruct (DocumentType_of_value (DocSummary.file_type pd)) as [ft|]; [|exact Hstop].
    set (doc := Document.mk _ _ ft [] EMBEDDED (Some u) PRIVATE None).
    destruct (IH (ud ++ [doc]) od) as (ua & oa & Heq & H1 & H2 & H3 & H4).
    exists (doc :: ua), oa. rewrite Heq, <- app_assoc. simpl.
    split; [reflexivity|]. split; [constructor; auto|]. split; [exact H2|].
    assert (Hfresh : Forall (fun d => Document.filename d <> Document.filename doc) (ua ++ oa)).
    { eapply List.Forall_impl; [|exact H4]. intros d (Hn & _) Heqf. apply Hn.
      rewrite Heqf, !map_app. apply in_or_app. left. apply in_or_app. right. simpl. auto. }
    split.
    + constructor; [|exact H3]. rewrite list_elem_of_In. intros Hin.
      apply in_map_iff in Hin as (x & Hxf & Hx).
      rewrite List.Forall_forall in Hfresh. exact (Hfresh x Hx Hxf).
    + constructor.
      * repeat split; simpl; auto.
      * apply Hw. eapply List.Forall_impl; [|exact H4]. intros d (Hn & Hrest).
        split; [|exact Hrest]. intros Hin. apply Hn.
        rewrite !map_app in *. apply in_app_or in Hin as [Hin|Hin];
          apply in_or_app; [left; apply in_or_app; left; exact Hin|right; exact Hin].
  - destruct (DocumentType_of_value (DocSummary.file_type pd)) as [ft|]; [|exact Hstop].
    set (doc := Document.mk _ _ ft [] EMBEDDED None PUBLIC None).
    destruct (IH ud (od ++ [doc])) as (ua & oa & Heq & H1 & H2 & H3 & H4).
    exists ua, (doc :: oa). rewrite Heq, <- app_assoc. simpl.
    split; [reflexivity|]. split; [exact H1|]. split; [constructor; auto|].
    assert (Hfresh : Forall (fun d => Document.filename d <> Document.filename doc) (ua ++ oa)).
    { eapply List.Forall_impl; [|exact H4]. intros d (Hn & _) Heqf. apply Hn.
      rewrite Heqf, !map_app. apply in_or_app. right. apply in_or_app. right. simpl. auto. }
    assert (Hp : Permutation (ua ++ doc :: oa) (doc :: ua ++ oa))
      by (symmetry; apply Permutation_middle).
    split.
    + rewrite (Permutation_map Document.filename Hp). simpl.
      constructor; [|exact H3]. rewrite list_elem_of_In. intros Hin.
      apply in_map_iff in Hin as (x & Hxf & Hx).
      rewrite List.Forall_forall in Hfresh. exact (Hfresh x Hx Hxf).
    + apply (Permutation_Forall (Permutation_sym Hp)). constructor.
      * repeat split; simpl; auto.
      * apply Hw. eapply List.Forall_impl; [|exact H4]. intros d (Hn & Hrest).
        split; [|exact Hrest]. intros Hin. apply Hn.
        rewrite !map_app in *. rewrite app_assoc. apply in_or_app. left. exact Hin.
Qed.

Lemma in_filter_owner (p : Document.t -> Prop) `{forall d, Decision (p d)} l d :
  In d (List.filter (fun d => bool_decide (p d)) l) <-> In d l /\ p d.
Proof. rewrite filter_In. rewrite bool_decide_eq_true. tauto. Qed.
End ListingFacts.

(** X2: for a caller with a non-empty id, every document [list_documents]
    returns is the caller's own or organization-wide ([user_id] [None]),
    whether it comes from memory or from the index. *)
Theorem list_documents_only_visible (s : Service) (dimension : nat) (u : string)
    (d : Document.t) :
  py_truthy u = true ->
  In d (list_documents s dimension (Some u)) ->
  Document.user_id d = Some u \/ Document.user_id d = None.
Proof.
  intros Hu Hin. unfold list_documents in Hin. rewrite Hu in Hin.
  assert (Hmem : forall l, In d (List.filter (fun d => bool_decide (Document.user_id d = Some u)) l
                                ++ List.filter (fun d => bool_decide (Document.user_id d = None)) l) ->
                 Document.user_id d = Some u \/ Document.user_id d = None).
  { intros l H. apply in_app_or in H as [H|H];
      apply ListingFacts.in_filter_owner in H; tauto. }
  destruct (vector_db s) as [ix|]; [|exact (Hmem _ Hin)].
  destruct (ListingFacts.merge_shape u (AllDocuments.get_all_documents ix dimension)
              (List.filter (fun d => bool_decide (Document.user_id d = Some u)) (document_values s))
              (List.filter (fun d => bool_decide (Document.user_id d = None)) (document_values s)))
    as (ua & oa & Heq & H1 & H2 & _).
  rewrite Heq in Hin. rewrite List.Forall_forall in H1, H2.
  apply in_app_or in Hin as [Hin|Hin]; apply in_app_or in Hin as [Hin|Hin].
  - left. apply ListingFacts.in_filter_owner in Hin. tauto.
  - left. apply H1, Hin.
  - right. apply ListingFacts.in_filter_owner in Hin. tauto.
  - right. apply H2, Hin.
Qed.

Lemma list_documents_only_visible_witness :
  py_truthy "u1" = true /\
  In owned_doc (list_documents one_doc_service 1 (Some "u1")) /\
  (Document.user_id owned_doc = Some "u1" \/ Document.user_id owned_doc = None).
Proof.
  assert (H1 : py_truthy "u1" = true) by reflexivity.
  assert (H2 : In owned_doc (list_documents one_doc_service 1 (Some "u1")))
    by (vm_compute; left; reflexivity).
  exact (conj H1 (conj H2 (list_documents_only_visible one_doc_service 1 "u1" owned_doc H1 H2))).
Defined.

(** X3: for a caller with a non-empty id, every in-memory document that is
    the caller's own or organization-wide is listed by [list_documents],
    whatever the index holds. *)
Theorem list_documents_lists_memory (s : Service) (dimension : nat) (u : string)
    (d : Document.t) :
  py_truthy u = true ->
  In d (document_values s) ->
  Document.user_id d = Some u \/ Document.user_id d = None ->
  In d (list_documents s dimension (Some u)).
Proof.
  intros Hu Hd Hvis. unfold list_documents. rewrite Hu.
  assert (Hmem : In d (List.filter (fun d => bool_decide (Document.user_id d = Some u))
                         (document_values s)) \/
                 In d (List.filter (fun d => bool_decide (Document.user_id d = None))
                         (document_values s))).
  { destruct Hvis as [Hv|Hv]; [left|right]; apply ListingFacts.in_filter_owner; tauto. }
  destruct (vector_db s) as [ix|].
  - destruct (ListingFacts.merge_shape u (AllDocuments.get_all_documents ix dimension)
                (List.filter (fun d => bool_decide (Document.user_id d = Some u)) (document_values s))
                (List.filter (fun d => bool_decide (Document.user_id d = None)) (document_values s)))
      as (ua & oa & Heq & _).
    rewrite Heq. apply in_or_app.
    destruct Hmem as [H|H]; [left|right]; apply in_or_app; left; exact H.
  - apply in_or_app. exact Hmem.
Qed.

Lemma list_documents_lists_memory_witness :
  py_truthy "u1" = true /\ In embedded_doc (document_values indexed_service) /\
  In embedded_doc (list_documents indexed_service 1 (Some "u1")).
Proof.
  assert (H2 : In embedded_doc (document_values indexed_service))
    by (vm_compute; left; reflexivity).
  split; [reflexivity|]. split; [exact H2|].
  apply (list_documents_lists_memory indexed_service 1 "u1" embedded_doc);
    [reflexivity | exact H2 | left; reflexivity].
Defined.



(* ------------------------------------------------------------------ *)
(** ** [get_document_type] *)

Module FileTypeFacts.

Lemma str_lower_app a b : str_lower (a +:+ b) = str_lower a +:+ str_lower b.
Proof. induction a as [|c a IH]; simpl; [reflexivity|]. rewrite IH. reflexivity. Qed.

Lemma last_segment_dot a b acc : last_segment (a +:+ String "." b) acc = last_segment b "".
Proof.
  revert acc. induction a as [|c a IH]; intros acc; simpl; [reflexivity|].
  destruct (Ascii.eqb c "."); apply IH.
Qed.

Lemma extension_after_dot name ext :
  last_segment (str_lower (name +:+ String "." ext)) "" = last_segment (str_lower ext) "".
Proof.
  rewrite str_lower_app.
  change (str_lower (String "." ext)) with (String (ascii_lower ".") (str_lower ext)).
  replace (ascii_lower ".") with "."%char by reflexivity.
  apply last_segment_dot.
Qed.
End FileTypeFacts.


(** X6: a filename whose extension is the value of a [DocumentType]
    (["pdf"], ["markdown"], ...) is accepted with that type, and
    [DocumentType] reads its own value back; [".md"] gives [MARKDOWN]. *)
Theorem get_document_type_values (name : string) (t : DocumentType) :
  get_document_type (name +:+ String "." (DocumentType_value t)) = Resp t /\
  DocumentType_of_value (DocumentType_value t) = Some t /\
  get_document_type (name +:+ ".md") = Resp MARKDOWN.
Proof.
  unfold get_document_type. rewrite !FileTypeFacts.extension_after_dot.
  split; [|split]; [destruct t; reflexivity | destruct t; reflexivity | reflexivity].
Qed.

(* ------------------------------------------------------------------ *)
(** ** [upload_document] *)

(** X7: a successful upload stores, under the new id, an [UPLOADED]
    document whose access level is the parsed form field (any value other
    than ["private"], ["hierarchy"] or ["public"] gives [PRIVATE]); the
    document is organization-wide (no owner) exactly when the field is
    ["public"], and is owned by the uploader otherwise. No other entry of
    the store changes. *)
Theorem upload_document_stores (max_file_size : nat) (document_id filename : string)
    (file_content : list Byte.byte) (access_level current_user_id : string)
    (s s' : Service) (r : DocumentUploadResponse.t) :
  upload_document max_file_size document_id filename file_content access_level
    current_user_id s = (Resp r, s') ->
  DocumentUploadResponse.document_id r = document_id /\
  DocumentUploadResponse.status r = UPLOADED /\
  (exists d, documents s' !! document_id = Some d /\
     Document.status d = UPLOADED /\
     Document.access_level d = parse_access_level access_level /\
     Document.user_id d =
       (if String.eqb access_level "public" then None else Some current_user_id)) /\
  (forall k, k <> document_id -> documents s' !! k = documents s !! k).
Proof.
  unfold upload_document. intros H.
  destruct (Nat.ltb max_file_size (length file_content)); [discriminate|].
  destruct (get_document_type filename) as [ft|c det]; [|discriminate].
  unfold create_document in H. injection H as <- <-.
  cbn [DocumentUploadResponse.document_id DocumentUploadResponse.status Document.id
       Document.status documents with_documents].
  split; [reflexivity|]. split; [reflexivity|]. split.
  - eexists. split; [apply lookup_insert_eq|].
    cbn [Document.status Document.access_level Document.user_id]. split; [reflexivity|].
    split; [reflexivity|].
    unfold parse_access_level.
    destruct (String.eqb access_level "public") eqn:Ep.
    + apply String.eqb_eq in Ep. subst access_level. reflexivity.
    + destruct (String.eqb access_level "private"); [reflexivity|].
      destruct (String.eqb access_level "hierarchy"); [reflexivity|].
      reflexivity.
  - intros k Hk. apply lookup_insert_ne. congruence.
Qed.

Lemma upload_document_stores_witness :
  exists r s',
    upload_document 100 "d9" "Notes.TXT" [] "Public" "u1" one_doc_service = (Resp r, s') /\
    DocumentUploadResponse.document_id r = "d9" /\
    DocumentUploadResponse.status r = UPLOADED /\
    (exists d, documents s' !! "d9" = Some d /\
       Document.status d = UPLOADED /\
       Document.access_level d = parse_access_level "Public" /\
       Document.user_id d = (if String.eqb "Public" "public" then None else Some "u1")) /\
    (forall k, k <> "d9" -> documents s' !! k = documents one_doc_service !! k).
Proof.
  do 2 eexists. split; [vm_compute; reflexivity|].
  apply (upload_document_stores 100 "d9" "Notes.TXT" [] "Public" "u1" one_doc_service).
  vm_compute. reflexivity.
Defined.

(** X8: an upload that raises leaves the service unchanged: either the
    file is larger than [max_file_size] (HTTP 413, checked first), or its
    extension is not supported (HTTP 400, the error of
    [get_document_type]). *)
Theorem upload_document_rejects (max_file_size : nat) (document_id filename : string)
    (file_content : list Byte.byte) (access_level current_user_id : string)
    (s s' : Service) (c : Z) (detail : string) :
  upload_document max_file_size document_id filename file_content access_level
    current_user_id s = (HTTPException c detail, s') ->
  s' = s /\
  ((c = 413 /\ (max_file_size < length file_content)%nat) \/
   (c = 400 /\ (length file_content <= max_file_size)%nat /\
    get_document_type filename = HTTPException 400 detail)).
Proof.
  unfold upload_document. intros H.
  destruct (Nat.ltb max_file_size (length file_content)) eqn:Hl.
  { injection H as <- <- <-. split; [reflexivity|]. left. split; [reflexivity|].
    apply Nat.ltb_lt, Hl. }
  apply Nat.ltb_ge in Hl.
  destruct (get_document_type filename) as [ft|c' det] eqn:Ht.
  - unfold create_document in H. discriminate.
  - injection H as -> -> <-. split; [reflexivity|]. right.
    unfold get_document_type in Ht. destruct (type_mapping _); [discriminate|].
    injection Ht as <- <-. auto.
Qed.

Lemma upload_document_rejects_witness :
  exists c detail s',
    upload_document 100 "d9" "setup.exe" [] "private" "u1" one_doc_service
    = (HTTPException c detail, s') /\
    s' = one_doc_service /\
    ((c = 413 /\ (100 < length (@nil Byte.byte))%nat) \/
     (c = 400 /\ (length (@nil Byte.byte) <= 100)%nat /\
      get_document_type "setup.exe" = HTTPException 400 detail)).
Proof.
  do 3 eexists. split; [vm_compute; reflexivity|].
  apply (upload_document_rejects 100 "d9" "setup.exe" [] "private" "u1" one_doc_service).
  vm_compute. reflexivity.
Defined.

(* ------------------------------------------------------------------ *)
(** ** The processing pipeline end to end *)

Module StageFacts.
Import Pinecone PineconeClient SearchDefs PipelineFacts UpsertFacts.

Lemma process_document_outcome p document_id content s r s' d :
  documents s !! document_id = Some d ->
  process_document p document_id content s = (r, s') ->
  (r = Ok true /\ is_Some (documents s' !! document_id)) \/
  (exists msg d', r = Err msg /\
     documents s' !! document_id = Some (Document.set_error msg d')).
Proof.
  intros Hd H. unfold process_document in H. rewrite Hd in H.
  destruct (p (Document.set_status PROCESSING d) content) as [pd|msg] eqn:Hp.
  - injection H as <- <-. left. split; [reflexivity|]. simpl.
    rewrite lookup_insert_eq. eexists; reflexivity.
  - right. exists msg, (Document.set_status PROCESSING d).
    eapply fail_stage_error; [|exact H]. simpl. apply lookup_insert_eq.
Qed.

Lemma process_document_ok p document_id content s b s' :
  process_document p document_id content s = (Ok b, s') ->
  is_Some (documents s' !! document_id).
Proof.
  intros H. destruct (documents s !! document_id) as [d|] eqn:Hd.
  - destruct (process_document_outcome p document_id content s _ _ d Hd H)
      as [[_ Hs] | (msg & d' & Habs & _)]; [exact Hs|discriminate].
  - unfold process_document in H. rewrite Hd in H. discriminate.
Qed.

Lemma embed_document_outcome document_id s r s' d :
  documents s !! document_id = Some d ->
  embed_document document_id s = (r, s') ->
  (r = Ok true /\ exists d', documents s' !! document_id = Some d' /\
                             Document.status d' = EMBEDDED) \/
  (exists msg, r = Err msg /\
     documents s' !! document_id = Some (Document.set_error msg d)).
Proof.
  intros Hd H. unfold embed_document in H. rewrite Hd in H.
  destruct (embedder s) as [e|].
  2:{ right. eexists. eapply fail_stage_error; eauto. }
  destruct (map DocumentChunk.content (Document.chunks d)) as [|t ts].
  { right. eexists. eapply fail_stage_error; eauto. }
  destruct (embed_texts e (t :: ts)) as [es|msg].
  - injection H as <- <-. left. split; [reflexivity|]. eexists.
    split; [apply lookup_insert_eq|reflexivity].
  - right. eexists. eapply fail_stage_error; eauto.
Qed.

Lemma foldl_ins_keeps m vs k :
  is_Some (m !! k) -> is_Some (foldl ins m vs !! k).
Proof.
  revert m. induction vs as [|[k' st] vs IH]; intros m Hm; simpl; [exact Hm|].
  apply IH. unfold ins. simpl. destruct (decide (k' = k)) as [->|Hne].
  - rewrite lookup_insert_eq. eexists; reflexivity.
  - rewrite lookup_insert_ne by exact Hne. exact Hm.
Qed.

Lemma foldl_ins_present m vs k st :
  In (k, st) vs -> is_Some (foldl ins m vs !! k).
Proof.
  revert m. induction vs as [|kv vs IH]; intros m Hin; simpl; [contradiction|].
  destruct Hin as [Heq|Hin]; [subst kv|apply IH, Hin].
  apply foldl_ins_keeps. unfold ins. simpl. rewrite lookup_insert_eq. eexists; reflexivity.
Qed.

Lemma prepare_vectors_complete cs c :
  In c cs -> py_truthy_vec (DocumentChunk.embedding c) = true ->
  exists st, In (DocumentChunk.id c, st) (prepare_vectors cs).
Proof.
  induction cs as [|c' cs IH]; simpl; [contradiction|]. intros [->|Hin] Hc.
  - destruct (DocumentChunk.embedding c) as [[|x xs]|]; try discriminate.
    eexists. left. reflexivity.
  - destruct (IH Hin Hc) as [st Hst]. exists st.
    destruct (DocumentChunk.embedding c') as [[|x xs]|]; simpl; auto.
Qed.
End StageFacts.

(** X9: when the document exists, a failure anywhere in
    [process_and_embed_document] leaves it in [ERROR], with the raised
    message recorded as its [error_message]. *)
Theorem process_and_embed_failure_recorded
    (processor : Document.t -> list Byte.byte -> res Document.t)
    (document_id : string) (file_content : list Byte.byte) (s s' : Service)
    (d : Document.t) (msg : string) :
  documents s !! document_id = Some d ->
  process_and_embed_document processor document_id file_content s = (Err msg, s') ->
  exists d', documents s' !! document_id = Some d' /\
             Document.status d' = ERROR /\ Document.error_message d' = Some msg.
Proof.
  intros Hd H. unfold process_and_embed_document, bind, ret in H. cbv beta in H.
  destruct (process_document processor document_id file_content s) as [r1 s1] eqn:H1.
  destruct (StageFacts.process_document_outcome _ _ _ _ _ _ d Hd H1)
    as [[-> [d1 Hd1]] | (m & d1 & -> & Hd1)].
  - destruct (embed_document document_id s1) as [r2 s2] eqn:H2.
    destruct (StageFacts.embed_document_outcome _ _ _ _ d1 Hd1 H2)
      as [[-> (d2 & Hd2 & _)] | (m & -> & Hd2)].
    + destruct (store_vectors document_id s2) as [r3 s3] eqn:H3.
      destruct (PipelineFacts.store_vectors_outcome _ _ _ d2 _ Hd2 H3)
        as [(-> & _) | (m & -> & Hd3)]; [discriminate|].
      injection H as -> <-. eexists. split; [exact Hd3|]. split; reflexivity.
    + injection H as -> <-. eexists. split; [exact Hd2|]. split; reflexivity.
  - injection H as -> <-. eexists. split; [exact Hd1|]. split; reflexivity.
Qed.

Lemma process_and_embed_failure_recorded_witness :
  exists s',
    documents one_doc_service !! "d1" = Some owned_doc /\
    process_and_embed_document (fun _ _ => Err "unreadable file") "d1" []
      one_doc_service = (Err "unreadable file", s') /\
    exists d', documents s' !! "d1" = Some d' /\
               Document.status d' = ERROR /\ Document.error_message d' = Some "unreadable file".
Proof.
  eexists. split; [reflexivity|]. split; [vm_compute; reflexivity|].
  apply (process_and_embed_failure_recorded (fun _ _ => Err "unreadable file") "d1" []
           one_doc_service _ owned_doc "unreadable file"); [reflexivity|].
  vm_compute. reflexivity.
Defined.

(** X10: when [process_and_embed_document] returns, the document is
    [EMBEDDED] and every one of its chunks that has a non-empty embedding
    has a vector under its id in the configured index. *)
Theorem process_and_embed_success_indexed
    (processor : Document.t -> list Byte.byte -> res Document.t)
    (document_id : string) (file_content : list Byte.byte) (s s' : Service) (b : bool) :
  process_and_embed_document processor document_id file_content s = (Ok b, s') ->
  exists d ix, documents s' !! document_id = Some d /\ Document.status d = EMBEDDED /\
    vector_db s' = Some ix /\
    forall c, In c (Document.chunks d) -> py_truthy_vec (DocumentChunk.embedding c) = true ->
      is_Some (Pinecone.vectors ix !! DocumentChunk.id c).
Proof.
  intros H. unfold process_and_embed_document, bind, ret in H. cbv beta in H.
  destruct (process_document processor document_id file_content s) as [[b1|m1] s1] eqn:H1;
    [|discriminate].
  destruct (StageFacts.process_document_ok _ _ _ _ _ _ H1) as [d1 Hd1].
  destruct (embed_document document_id s1) as [r2 s2] eqn:H2.
  destruct (StageFacts.embed_document_outcome _ _ _ _ d1 Hd1 H2)
    as [[-> (d2 & Hd2 & Hst)] | (m & -> & _)]; [|discriminate].
  destruct (store_vectors document_id s2) as [r3 s3] eqn:H3.
  destruct (PipelineFacts.store_vectors_outcome _ _ _ d2 _ Hd2 H3)
    as [(-> & Hdocs & ix & ix' & Hix & Hup & Hix') | (m & -> & _)]; [|discriminate].
  injection H as _ <-.
  exists d2, ix'. split; [rewrite Hdocs; exact Hd2|]. split; [exact Hst|].
  split; [exact Hix'|].
  intros c Hc He. unfold batch_upsert_vectors in Hup.
  rewrite (UpsertFacts.upsert_vectors_vectors _ _ _ Hup).
  destruct (StageFacts.prepare_vectors_complete
              (List.filter (fun c => py_truthy_vec (DocumentChunk.embedding c))
                 (Document.chunks d2)) c) as [st Hst'].
  { apply filter_In. split; assumption. }
  { exact He. }
  eapply StageFacts.foldl_ins_present, Hst'.
Qed.

Lemma process_and_embed_success_indexed_witness :
  exists b s',
    process_and_embed_document (fun d _ => Ok (Document.set_chunks [chunk_p] d)) "d3" []
      embed_ready_service = (Ok b, s') /\
    exists d ix, documents s' !! "d3" = Some d /\ Document.status d = EMBEDDED /\
      vector_db s' = Some ix /\
      forall c, In c (Document.chunks d) -> py_truthy_vec (DocumentChunk.embedding c) = true ->
        is_Some (Pinecone.vectors ix !! DocumentChunk.id c).
Proof.
  do 2 eexists. split; [vm_compute; reflexivity|].
  eapply (process_and_embed_success_indexed (fun d _ => Ok (Document.set_chunks [chunk_p] d))
           "d3" [] embed_ready_service).
  vm_compute. reflexivity.
Defined.



(* ------------------------------------------------------------------ *)
(** ** Deletion, status and listing after creation *)

(** X12: a [delete_document] that raises changes nothing: the document is
    still in the store and the index is untouched. It raises only for a
    document the caller may see that has chunks, while an index is
    configured. *)
Theorem delete_document_failure_atomic (document_id : string) (user_id : option string)
    (s s' : Service) (msg : string) :
  delete_document document_id user_id s = (Err msg, s') ->
  s' = s /\
  exists d ix, get_document s document_id user_id = Some d /\
    Document.chunks d <> [] /\ vector_db s = Some ix.
Proof.
  unfold delete_document. intros H.
  destruct (get_document s document_id user_id) as [d|] eqn:Hg; [|discriminate].
  destruct (vector_db s) as [ix|] eqn:Hv.
  2:{ discriminate. }
  destruct (Document.chunks d) as [|c cs] eqn:Hc; [discriminate|].
  destruct (PineconeClient.delete_vectors ix _) as [[b|m] ix']; [discriminate|].
  injection H as _ <-. split; [reflexivity|].
  exists d, ix. split; [reflexivity|]. split; [rewrite Hc; discriminate|reflexivity].
Qed.

Lemma delete_document_failure_atomic_witness :
  exists msg s',
    delete_document "d1" (Some "u1")
      (with_vector_db indexed_service (Pinecone.mkIndex ∅ dot false)) = (Err msg, s') /\
    s' = with_vector_db indexed_service (Pinecone.mkIndex ∅ dot false) /\
    exists d ix,
      get_document (with_vector_db indexed_service (Pinecone.mkIndex ∅ dot false))
        "d1" (Some "u1") = Some d /\
      Document.chunks d <> [] /\
      vector_db (with_vector_db indexed_service (Pinecone.mkIndex ∅ dot false)) = Some ix.
Proof.
  do 2 eexists. split; [vm_compute; reflexivity|].
  eapply (delete_document_failure_atomic "d1" (Some "u1")
            (with_vector_db indexed_service (Pinecone.mkIndex ∅ dot false))).
  vm_compute. reflexivity.
Defined.

(** X13: right after [create_document], its creator reads the status
    [UPLOADED] with no chunks, nothing embedded, no error and progress 0;
    another caller with a non-empty id gets no status exactly when the
    document is not [PUBLIC]. *)
Theorem create_document_then_status (document_id filename : string)
    (file_type : DocumentType) (u v : string) (access_level : AccessLevel) (s : Service) :
  py_truthy v = true -> v <> u ->
  let s' := (create_document document_id filename file_type u access_level s).2 in
  get_document_status s' document_id (Some u)
    = Some (DocumentProcessingStatus.mk document_id UPLOADED 0 0 None 0) /\
  (get_document_status s' document_id (Some v) = None <-> access_level <> PUBLIC).
Proof.
  intros Hv Hne s'. unfold s', create_document. cbn [snd].
  unfold get_document_status, get_document. cbn [documents with_documents].
  rewrite lookup_insert_eq. cbn [py_truthy_opt]. rewrite Hv. unfold opt_neq.
  assert (Hvu : bool_decide (Some u = Some v) = false)
    by (apply bool_decide_eq_false_2; congruence).
  destruct access_level; cbn [Document.user_id].
  - rewrite Hvu. split; [|split; [discriminate|reflexivity]].
    destruct (py_truthy u); [|reflexivity].
    rewrite bool_decide_eq_true_2 by reflexivity. reflexivity.
  - rewrite Hvu. split; [|split; [discriminate|reflexivity]].
    destruct (py_truthy u); [|reflexivity].
    rewrite bool_decide_eq_true_2 by reflexivity. reflexivity.
  - rewrite (bool_decide_eq_false_2 (is_Some (@None string))) by apply is_Some_None.
    rewrite !andb_false_r. split; [destruct (py_truthy u); reflexivity|].
    split; [discriminate|]. intros Habs. contradiction.
Qed.

Lemma create_document_then_status_witness :
  py_truthy "u2" = true /\ "u2" <> "u1" /\
  let s' := (create_document "d9" "x.pdf" PDF "u1" HIERARCHY one_doc_service).2 in
  get_document_status s' "d9" (Some "u1")
    = Some (DocumentProcessingStatus.mk "d9" UPLOADED 0 0 None 0) /\
  (get_document_status s' "d9" (Some "u2") = None <-> HIERARCHY <> PUBLIC).
Proof.
  assert (H1 : py_truthy "u2" = true) by reflexivity.
  assert (H2 : "u2" <> "u1") by discriminate.
  split; [exact H1|]. split; [exact H2|].
  exact (create_document_then_status "d9" "x.pdf" PDF "u1" "u2" HIERARCHY one_doc_service H1 H2).
Defined.

(** X14: with no caller id ([None], the default) or an empty one,
    [search_vectors] applies no owner filter: it returns, best first, every
    one of the [top_k] candidates whose score reaches the threshold,
    whoever owns it. *)
Theorem search_vectors_without_caller (ix : Pinecone.index) (query_vector : list Z)
    (top_k : nat) (threshold : Z) (filter_metadata : option (gmap string string))
    (user_id : option string) :
  py_truthy_opt user_id = false ->
  Pinecone.available ix = true ->
  PineconeClient.search_vectors ix query_vector top_k threshold filter_metadata user_id
  = Ok (map PineconeClient.to_result
          (List.filter (fun m => Z.geb (Pinecone.m_score m) threshold)
             (Pinecone.query ix query_vector top_k (default ∅ filter_metadata)))).
Proof.
  intros Hu Ha. unfold PineconeClient.search_vectors. rewrite Ha. f_equal.
  rewrite SearchFacts.collect_filter. f_equal. apply List.filter_ext. intros m.
  unfold SearchDefs.keep. rewrite Hu. simpl. apply andb_true_r.
Qed.

Lemma search_vectors_without_caller_witness :
  py_truthy_opt None = false /\ Pinecone.available two_owner_index = true /\
  PineconeClient.search_vectors two_owner_index [1] 2 1 None None
  = Ok (map PineconeClient.to_result
          (List.filter (fun m => Z.geb (Pinecone.m_score m) 1)
             (Pinecone.query two_owner_index [1] 2 (default ∅ None)))).
Proof.
  split; [reflexivity|]. split; [reflexivity|].
  apply (search_vectors_without_caller two_owner_index [1] 2 1 None None); reflexivity.
Defined.

(** X15: a document just made by [create_document] is listed by
    [list_accessible_documents] for every user when it is [PUBLIC], and
    otherwise for its creator only. *)
Theorem list_accessible_after_create (document_id filename : string)
    (file_type : DocumentType) (u v : string) (access_level : AccessLevel) (s : Service)
    (d : Document.t) :
  (create_document document_id filename file_type u access_level s).1 = Ok d ->
  In d (list_accessible_documents
          (create_document document_id filename file_type u access_level s).2 v)
  <-> access_level = PUBLIC \/ v = u.
Proof.
  unfold create_document. cbn [fst snd]. intros H. injection H as <-.
  unfold list_accessible_documents. rewrite filter_In.
  assert (Hin : In (Document.mk document_id filename file_type [] UPLOADED
                      match access_level with PUBLIC => None | _ => Some u end
                      access_level None)
                 (document_values (with_documents s (<[document_id :=
                    Document.mk document_id filename file_type [] UPLOADED
                      match access_level with PUBLIC => None | _ => Some u end
                      access_level None]> (documents s))))).
  { unfold document_values. cbn [documents with_documents].
    apply in_map_iff. eexists (document_id, _). split; [reflexivity|].
    apply list_elem_of_In, elem_of_map_to_list, lookup_insert_eq. }
  split.
  - intros [_ Hp]. cbn [Document.user_id Document.access_level] in Hp.
    destruct access_level; [| |left; reflexivity]; right;
      rewrite orb_false_r in Hp; apply bool_decide_eq_true in Hp; congruence.
  - intros Hc. split; [exact Hin|]. cbn [Document.user_id Document.access_level].
    destruct access_level; [| |apply orb_true_r];
      (destruct Hc as [Hc| ->]; [discriminate|]);
      apply orb_true_iff; left; apply bool_decide_eq_true; reflexivity.
Qed.

Lemma list_accessible_after_create_witness :
  (create_document "d9" "x.txt" TXT "u1" PUBLIC one_doc_service).1
    = Ok (Document.mk "d9" "x.txt" TXT [] UPLOADED None PUBLIC None) /\
  (In (Document.mk "d9" "x.txt" TXT [] UPLOADED None PUBLIC None)
     (list_accessible_documents
        (create_document "d9" "x.txt" TXT "u1" PUBLIC one_doc_service).2 "u2")
   <-> PUBLIC = PUBLIC \/ "u2" = "u1").
Proof.
  split; [reflexivity|].
  apply (list_accessible_after_create "d9" "x.txt" TXT "u1" "u2" PUBLIC one_doc_service).
  reflexivity.
Defined.
